(** * PDF-Customizer: page-range selection and page assembly

    A shallow embedding of the three scripts of the repository
    ([split_pdf.py], [generate_report.py], [generate_all_reports.py]) and the
    properties of their page selection, validation and error handling.

    Python integers are [Z]; 1-indexed inclusive page ranges are pairs of
    [Z]; a source document is the list of its pages; exceptions, printing,
    the accesses to [reader.pages] and the files written are threaded
    through a state-and-exception monad. *)

From Stdlib Require Import ZArith Ascii String DecimalString.
From stdpp Require Import base list gmap strings.

Open Scope Z_scope.

(** ** The fragment of the Python runtime the scripts rely on *)

(** Exceptions.  [IOError] is an alias of [OSError] and [FileNotFoundError]
    is one of its subclasses; [KeyboardInterrupt] derives from
    [BaseException] only.  [OSError]'s second field is [__cause__], set by
    [raise ... from e]. *)
#[warnings="-register-all"] Inductive exn : Type :=
| FileNotFoundError (msg : string)
| OSError (msg : string) (cause : option exn)
| ValueError (msg : string)
| IndexError (msg : string)
| KeyboardInterrupt
| OtherException (cls msg : string).

(** [isinstance(e, Exception)] *)
Definition is_Exception (e : exn) : bool :=
  match e with
  | KeyboardInterrupt => false
  | _ => true
  end.

(** [str(e)] *)
Definition exn_str (e : exn) : string :=
  match e with
  | FileNotFoundError msg => msg
  | OSError msg _ => msg
  | ValueError msg => msg
  | IndexError msg => msg
  | KeyboardInterrupt => ""
  | OtherException _ msg => msg
  end.

(** [type(e).__name__] *)
Definition exn_type_name (e : exn) : string :=
  match e with
  | FileNotFoundError _ => "FileNotFoundError"
  | OSError _ _ => "OSError"
  | ValueError _ => "ValueError"
  | IndexError _ => "IndexError"
  | KeyboardInterrupt => "KeyboardInterrupt"
  | OtherException cls _ => cls
  end.

(** [str(n)] for an integer [n] *)
Definition str_int (z : Z) : string := NilZero.string_of_int (Z.to_int z).

(** The newline character of an f-string's [\n]. *)
Definition nl : string := String (ascii_of_nat 10) EmptyString.

(** [c.lower()] on one character and [s.lower()] on (ASCII) strings *)
Definition ascii_lower (c : ascii) : ascii :=
  let n := nat_of_ascii c in
  if (65 <=? n)%nat && (n <=? 90)%nat then ascii_of_nat (n + 32) else c.

Fixpoint str_lower (s : string) : string :=
  match s with
  | EmptyString => EmptyString
  | String c s' => String (ascii_lower c) (str_lower s')
  end.

(** [range(a, b)]: the integers [a, a+1, ..., b-1], empty when [b <= a]. *)
Definition py_range (a b : Z) : list Z := seqZ a (b - a).

(** A [pathlib.Path] with the attributes the scripts read. *)
Record Path : Type := {
  path_str : string;   (* str(p) *)
  suffix : string;     (* p.suffix *)
  parent : string      (* str(p.parent) *)
}.

(** The outcome of a computation: a value, or a raised exception. *)
Inductive outcome (A : Type) : Type :=
| Return (a : A)
| Raise (e : exn).
Arguments Return {A} a.
Arguments Raise {A} e.

Section Scripts.
Context {Page : Type}.

(** What the collaborators answer: the file system and the pypdf codec.
    A document is the list of its pages; a page that cannot be read is the
    exception reading it raises. *)
Record Env : Type := {
  path_exists : string -> bool;     (* Path.exists, os.path.exists *)
  path_is_file : string -> bool;    (* Path.is_file *)
  pdf_open : string -> outcome (list (outcome Page));
                                    (* PdfReader(path) and its page index *)
  mkdir_parents : string -> option exn;
                                    (* mkdir(parents=True, exist_ok=True) *)
  open_wb : string -> option exn;   (* open(path, "wb") *)
  pdf_write : string -> list Page -> option exn
                                    (* writer.write(f_out) *)
}.

(** What a run leaves behind: the lines printed by the scripts and by
    argparse, the indices passed to [reader.pages[...]], and the files
    written.  A file opened for writing and not written to the end holds
    [None].  What the PDF library logs of its own accord is not part of
    the model. *)
Record World : Type := {
  stdout : list string;
  stderr : list string;
  page_reads : list Z;
  files : gmap string (option (list Page))
}.

Definition M (A : Type) : Type := World -> outcome A * World.

Definition ret {A : Type} (a : A) : M A := fun w => (Return a, w).

Definition raise {A : Type} (e : exn) : M A := fun w => (Raise e, w).

Definition bind {A B : Type} (m : M A) (k : A -> M B) : M B :=
  fun w =>
    match m w with
    | (Return a, w') => k a w'
    | (Raise e, w') => (Raise e, w')
    end.

(** [try: body except ...: handler]; a handler that has no clause for an
    exception raises it again. *)
Definition try_except {A : Type} (body : M A) (handler : exn -> M A) : M A :=
  fun w =>
    match body w with
    | (Return a, w') => (Return a, w')
    | (Raise e, w') => handler e w'
    end.

Notation "x <- m ;; k" := (bind m (fun x => k))
  (at level 100, m at next level, right associativity).
Notation "m ;; k" := (bind m (fun _ => k))
  (at level 100, right associativity).

(** [if c: body] *)
Definition when (c : bool) (body : M unit) : M unit :=
  if c then body else ret tt.

(** [print(s)] and [print(s, file=sys.stderr)] *)
Definition print (s : string) : M unit := fun w =>
  (Return tt, {| stdout := stdout w ++ [s]; stderr := stderr w;
                 page_reads := page_reads w; files := files w |}).

Definition eprint (s : string) : M unit := fun w =>
  (Return tt, {| stdout := stdout w; stderr := stderr w ++ [s];
                 page_reads := page_reads w; files := files w |}).

(** [for x in xs: s = body(x, s)] *)
Fixpoint for_each {A S : Type} (xs : list A) (body : A -> S -> M S) (s : S)
  : M S :=
  match xs with
  | [] => ret s
  | x :: xs' => s' <- body x s ;; for_each xs' body s'
  end.

(** Lifting a collaborator's answer. *)
Definition lift_outcome {A : Type} (o : outcome A) : M A := fun w => (o, w).

Definition lift_status (o : option exn) : M unit :=
  match o with
  | None => ret tt
  | Some e => raise e
  end.

(** [reader.pages[i]]: Python sequence indexing.  A negative index counts
    from the end; an index outside [-n, n) raises [IndexError].  The index
    asked for is recorded in [page_reads]. *)
Definition normalize_index (n i : Z) : option Z :=
  let j := if i <? 0 then n + i else i in
  if (j <? 0) || (j >=? n) then None else Some j.

Definition pages_getitem (pages : list (outcome Page)) (i : Z) : M Page :=
  fun w =>
    let w' := {| stdout := stdout w; stderr := stderr w;
                 page_reads := page_reads w ++ [i]; files := files w |} in
    match normalize_index (Z.of_nat (length pages)) i with
    | None => (Raise (IndexError "Sequence index out of range"), w')
    | Some j =>
        match pages !! Z.to_nat j with
        | Some o => (o, w')
        | None => (Raise (IndexError "Sequence index out of range"), w')
        end
    end.

(** [with open(path, "wb") as f_out: writer.write(f_out)] *)
Definition open_and_write (env : Env) (path : string) (writer : list Page)
  : M unit :=
  lift_status (open_wb env path) ;;
  (fun w => (Return tt, {| stdout := stdout w; stderr := stderr w;
                           page_reads := page_reads w;
                           files := <[path := None]> (files w) |})) ;;
  lift_status (pdf_write env path writer) ;;
  (fun w => (Return tt, {| stdout := stdout w; stderr := stderr w;
                           page_reads := page_reads w;
                           files := <[path := Some writer]> (files w) |})).

(** ** split_pdf.py *)

Definition DEFAULT_INPUT_FILE : string :=
  "STT25_7806_AI_Readiness_Report_v2.pdf".
Definition DEFAULT_OUTPUT_FILE : string := "STT25_Exploring_AI_Report.pdf".

Definition validate_input_file (env : Env) (input_path : Path) : M unit :=
  (if negb (path_exists env (path_str input_path))
   then raise (FileNotFoundError
                 ("Input file not found: " +:+ path_str input_path))
   else ret tt) ;;
  (if negb (path_is_file env (path_str input_path))
   then raise (ValueError
                 ("Input path is not a file: " +:+ path_str input_path))
   else ret tt) ;;
  (if negb (String.eqb (str_lower (suffix input_path)) ".pdf")
   then raise (ValueError
                 ("Input file must be a PDF: " +:+ path_str input_path))
   else ret tt).

(** One turn of either copying loop:
    [writer.add_page(reader.pages[i]); pages_added += 1]. *)
Definition copy_page (reader : list (outcome Page)) (i : Z)
  (st : list Page * Z) : M (list Page * Z) :=
  pg <- pages_getitem reader i ;;
  ret (st.1 ++ [pg], st.2 + 1).

Definition create_exploring_ai_report (env : Env)
  (input_path output_path : Path)
  (pages_first_range pages_skip_range : Z * Z) (verbose : bool) : M bool :=
  validate_input_file env input_path ;;
  let first_start_idx := pages_first_range.1 - 1 in
  let first_end_idx := pages_first_range.2 in
  let skip_start_idx := pages_skip_range.1 - 1 in
  let skip_end_idx := pages_skip_range.2 in
  try_except
    (when verbose (print ("Reading PDF: " +:+ path_str input_path)) ;;
     reader <- lift_outcome (pdf_open env (path_str input_path)) ;;
     let total_pages := Z.of_nat (length reader) in
     when verbose
       (print ("Total pages in input: " +:+ str_int total_pages)) ;;
     (if first_end_idx >? total_pages
      then raise (ValueError
             ("First range end (" +:+ str_int pages_first_range.2 +:+
              ") exceeds total pages (" +:+ str_int total_pages +:+ ")"))
      else ret tt) ;;
     (if first_start_idx <? 0
      then raise (ValueError
             ("First range start (" +:+ str_int pages_first_range.1 +:+
              ") must be >= 1"))
      else ret tt) ;;
     (if skip_start_idx >=? total_pages
      then raise (ValueError
             ("Skip range start (" +:+ str_int pages_skip_range.1 +:+
              ") exceeds total pages (" +:+ str_int total_pages +:+ ")"))
      else ret tt) ;;
     let writer : list Page := [] in
     let pages_added := 0 in
     when verbose
       (print ("Adding pages " +:+ str_int pages_first_range.1 +:+ "-" +:+
               str_int pages_first_range.2 +:+ "...")) ;;
     st <- for_each (py_range first_start_idx first_end_idx)
             (copy_page reader) (writer, pages_added) ;;
     let second_start_idx := skip_end_idx in
     st <- (if second_start_idx <? total_pages
            then
              when verbose
                (print ("Adding pages " +:+ str_int (skip_end_idx + 1) +:+
                        "-" +:+ str_int total_pages +:+ "...")) ;;
              for_each (py_range second_start_idx total_pages)
                (copy_page reader) st
            else ret st) ;;
     let writer := st.1 in
     let pages_added := st.2 in
     lift_status (mkdir_parents env (parent output_path)) ;;
     when verbose (print ("Writing output PDF: " +:+ path_str output_path)) ;;
     open_and_write env (path_str output_path) writer ;;
     when verbose
       (print (nl +:+ "✅ Success! Created: " +:+ path_str output_path) ;;
        print ("   - Pages kept: " +:+ str_int pages_first_range.1 +:+ "-" +:+
               str_int pages_first_range.2 +:+ " " +:+
               "(Intro + Exploring Summary)") ;;
        print ("   - Pages removed: " +:+ str_int pages_skip_range.1 +:+
               "-" +:+ str_int pages_skip_range.2 +:+ " " +:+
               "(Other Personalities)") ;;
        when (second_start_idx <? total_pages)
          (print ("   - Pages kept: " +:+ str_int (skip_end_idx + 1) +:+
                  "-" +:+ str_int total_pages +:+ " " +:+
                  "(Deep Dives + Outro)")) ;;
        print ("   - Total pages in output: " +:+ str_int pages_added)) ;;
     ret true)
    (fun e =>
       match e with
       | FileNotFoundError _ => raise e
       | ValueError _ =>
           when verbose (eprint ("❌ Validation Error: " +:+ exn_str e)) ;;
           raise e
       | _ =>
           if is_Exception e
           then
             when verbose
               (eprint ("❌ Unexpected Error: " +:+ exn_type_name e +:+
                        ": " +:+ exn_str e)) ;;
             raise (OSError ("Failed to process PDF: " +:+ exn_str e)
                      (Some e))
           else raise e
       end).

(** The namespace [argparse] hands to [main]. *)
Record Args : Type := {
  input_file : option Path;
  output_file : option Path;
  first_range : Z * Z;
  skip_range : Z * Z;
  quiet : bool
}.

(** What [parser.parse_args()] makes of the command line of the run: the
    namespace; or, for [--help] and for a command line that argparse
    rejects, the lines it prints (the help on standard output; the usage
    and the error on standard error) and the code of the [SystemExit] it
    raises (0 and 2). *)
Inductive parse_result : Type :=
| Namespace (args : Args)
| Exits (out err : list string) (code : Z).

(** How a call of [main] ends: as its [try] statement ends, or, before
    that statement is reached, with the [SystemExit] of [parse_args].
    [SystemExit] derives from [BaseException] only, and nothing but
    argparse raises it. *)
Inductive ending : Type :=
| Ends (o : outcome Z)
| SystemExit (code : Z).

(** [main] ending as its [try] statement [m] does. *)
Definition ends (m : M Z) : World -> ending * World :=
  fun w => (Ends (m w).1, (m w).2).

(** [Path(name)] for the two default file names, which have no directory
    part. *)
Definition default_path (name : string) : Path :=
  {| path_str := name; suffix := ".pdf"; parent := "." |}.

Definition main (env : Env) (command_line : parse_result)
  : World -> ending * World :=
  match command_line with
  | Exits out err code =>
      fun w =>
        (SystemExit code,
         {| stdout := stdout w ++ out; stderr := stderr w ++ err;
            page_reads := page_reads w; files := files w |})
  | Namespace args =>
      let input_file :=
        match input_file args with
        | Some p => p
        | None => default_path DEFAULT_INPUT_FILE
        end in
      let output_file :=
        match output_file args with
        | Some p => p
        | None => default_path DEFAULT_OUTPUT_FILE
        end in
      ends
        (try_except
           (success <- create_exploring_ai_report env input_file output_file
                         (first_range args) (skip_range args)
                         (negb (quiet args)) ;;
            ret (if success then 0 else 1))
           (fun e =>
              match e with
              | FileNotFoundError _ | ValueError _ | OSError _ _ =>
                  eprint ("Error: " +:+ exn_str e) ;; ret 1
              | KeyboardInterrupt =>
                  eprint (nl +:+ "Operation cancelled by user.") ;; ret 130
              | _ =>
                  eprint ("Unexpected error: " +:+ exn_str e) ;; ret 1
              end))
  end.

(** ** generate_report.py *)

(** One turn of the copying loops of the two fixed-range scripts:
    [writer.add_page(reader.pages[i])]. *)
Definition add_page (reader : list (outcome Page)) (i : Z)
  (writer : list Page) : M (list Page) :=
  pg <- pages_getitem reader i ;;
  ret (writer ++ [pg]).

Definition generate_exploring_ai_report (env : Env)
  (input_filename output_filename : string) : M unit :=
  if negb (path_exists env input_filename)
  then
    print ("❌ Error: The file '" +:+ input_filename +:+ "' was not found.") ;;
    print "   -> Please ensure the PDF is in the same folder as this script."
  else
    try_except
      (print ("⚙️  Processing: " +:+ input_filename +:+ "...") ;;
       reader <- lift_outcome (pdf_open env input_filename) ;;
       let writer : list Page := [] in
       let total_pages := Z.of_nat (length reader) in
       print ("📄 Total Source Pages: " +:+ str_int total_pages) ;;
       print "   -> Adding Header & Exploring AI Summary (Pages 1-10)..." ;;
       writer <- for_each (py_range 0 10) (add_page reader) writer ;;
       print ("   -> Adding Deep Dives & Outro (Page 14-" +:+
              str_int total_pages +:+ ")...") ;;
       writer <- for_each (py_range 13 total_pages) (add_page reader) writer ;;
       open_and_write env output_filename writer ;;
       print ("✅ Success! Report generated: " +:+ output_filename) ;;
       print "   -> Verified: Pages 11, 12, and 13 have been removed.")
      (fun e =>
         if is_Exception e
         then print ("❌ Critical Error: " +:+ exn_str e)
         else raise e).

Definition generate_report_script (env : Env) : M unit :=
  let SOURCE_FILE := "ai_readiness_report.pdf" in
  let OUTPUT_FILE := "personalised_exploring_ai.pdf" in
  generate_exploring_ai_report env SOURCE_FILE OUTPUT_FILE.

(** ** generate_all_reports.py *)

Definition personality_map : gmap string Z :=
  <["Exploring" := 9]> (<["Building" := 10]> (<["Integrating" := 11]>
    (<["Leading" := 12]> ∅))).

Definition generate_personality_report (env : Env)
  (personality_type input_filename : string) : M unit :=
  match personality_map !! personality_type with
  | None => print ("❌ Error: Unknown personality '" +:+ personality_type +:+ "'")
  | Some target_page_index =>
      let output_filename :=
        "STT25_Personalised_" +:+ personality_type +:+ "_AI.pdf" in
      if negb (path_exists env input_filename)
      then print ("❌ Error: Input file '" +:+ input_filename +:+ "' not found.")
      else
        try_except
          (reader <- lift_outcome (pdf_open env input_filename) ;;
           let writer : list Page := [] in
           let total_pages := Z.of_nat (length reader) in
           writer <- for_each (py_range 0 9) (add_page reader) writer ;;
           print ("   -> Inserting '" +:+ personality_type +:+
                  " AI' Summary (Page " +:+ str_int (target_page_index + 1) +:+
                  ")...") ;;
           writer <- add_page reader target_page_index writer ;;
           writer <- for_each (py_range 13 total_pages) (add_page reader)
                       writer ;;
           open_and_write env output_filename writer ;;
           print ("✅ Success! Generated: " +:+ output_filename))
          (fun e =>
             if is_Exception e
             then print ("❌ Error: " +:+ exn_str e)
             else raise e)
  end.

Definition generate_all_reports_script (env : Env) : M unit :=
  let SOURCE_FILE := "STT25_7806_AI_Readiness_Report_v2.pdf" in
  generate_personality_report env "Exploring" SOURCE_FILE ;;
  generate_personality_report env "Building" SOURCE_FILE ;;
  generate_personality_report env "Integrating" SOURCE_FILE.

End Scripts.

Arguments Env : clear implicits.
Arguments World : clear implicits.
Arguments M : clear implicits.

(** ** Vocabulary of the specification *)

Section Vocabulary.
Context {Page : Type}.

(** [wp m Q w]: running [m] from the world [w] ends in an outcome and a
    world that satisfy [Q]. *)
Definition wp {A : Type} (m : M Page A) (Q : outcome A -> World Page -> Prop)
  (w : World Page) : Prop :=
  Q (m w).1 (m w).2.

(** The three range checks of [create_exploring_ai_report] all pass for a
    document of [total_pages] pages. *)
Definition ranges_accepted (pages_first_range pages_skip_range : Z * Z)
  (total_pages : Z) : bool :=
  negb (pages_first_range.2 >? total_pages)
  && negb (pages_first_range.1 - 1 <? 0)
  && negb (pages_skip_range.1 - 1 >=? total_pages).

(** The values the loop variable [i] takes in the two copying loops of
    [create_exploring_ai_report], in order. *)
Definition loop_indices (pages_first_range pages_skip_range : Z * Z)
  (total_pages : Z) : list Z :=
  py_range (pages_first_range.1 - 1) pages_first_range.2
  ++ (if pages_skip_range.2 <? total_pages
      then py_range pages_skip_range.2 total_pages
      else []).

(** The source page [reader.pages[i]] denotes, when it can be read. *)
Definition page_at (reader : list (outcome Page)) (i : Z) (p : Page) : Prop :=
  exists j, normalize_index (Z.of_nat (length reader)) i = Some j
            /\ reader !! Z.to_nat j = Some (Return p).

(** The input path names an existing PDF file that opens as [doc], every
    page of which can be read. *)
Definition readable (env : Env Page) (input_path : Path) (doc : list Page)
  : Prop :=
  path_exists env (path_str input_path) = true
  /\ path_is_file env (path_str input_path) = true
  /\ str_lower (suffix input_path) = ".pdf"
  /\ pdf_open env (path_str input_path) = Return (Return <$> doc).

(** The input path passes [validate_input_file] and opens as [reader]
    (some of whose pages may fail to read). *)
Definition opens_as (env : Env Page) (input_path : Path)
  (reader : list (outcome Page)) : Prop :=
  path_exists env (path_str input_path) = true
  /\ path_is_file env (path_str input_path) = true
  /\ str_lower (suffix input_path) = ".pdf"
  /\ pdf_open env (path_str input_path) = Return reader.

(** The output can be created and [writer] written to it. *)
Definition writable_with (env : Env Page) (output_path : Path)
  (writer : list Page) : Prop :=
  mkdir_parents env (parent output_path) = None
  /\ open_wb env (path_str output_path) = None
  /\ pdf_write env (path_str output_path) writer = None.

(** The output can be created and written. *)
Definition writable (env : Env Page) (output_path : Path) : Prop :=
  mkdir_parents env (parent output_path) = None
  /\ open_wb env (path_str output_path) = None
  /\ forall writer, pdf_write env (path_str output_path) writer = None.

(** The exception the range checks of [create_exploring_ai_report] raise
    for a document of [total_pages] pages: that of the first check that
    fails, if any. *)
Definition range_error (pages_first_range pages_skip_range : Z * Z)
  (total_pages : Z) : option exn :=
  if pages_first_range.2 >? total_pages
  then Some (ValueError
               ("First range end (" +:+ str_int pages_first_range.2 +:+
                ") exceeds total pages (" +:+ str_int total_pages +:+ ")"))
  else if pages_first_range.1 - 1 <? 0
  then Some (ValueError
               ("First range start (" +:+ str_int pages_first_range.1 +:+
                ") must be >= 1"))
  else if pages_skip_range.1 - 1 >=? total_pages
  then Some (ValueError
               ("Skip range start (" +:+ str_int pages_skip_range.1 +:+
                ") exceeds total pages (" +:+ str_int total_pages +:+ ")"))
  else None.

(** The exceptions [create_exploring_ai_report] lets out: the three its
    docstring lists ([IOError] being [OSError]), and those that are not
    instances of [Exception]. *)
Definition report_raises (e : exn) : Prop :=
  match e with
  | FileNotFoundError _ | ValueError _ | OSError _ _ | KeyboardInterrupt => True
  | IndexError _ | OtherException _ _ => False
  end.

(** [m] only prints: it returns, and neither reads a page nor touches a
    file. *)
Definition only_prints (m : M Page unit) : Prop :=
  forall w, (m w).1 = Return tt
            /\ page_reads (m w).2 = page_reads w
            /\ files (m w).2 = files w.

(** Why a run of [create_exploring_ai_report] raised, with the indices it
    had passed to [reader.pages[...]] by then. *)
Inductive failure_cause (env : Env Page) (input_path output_path : Path)
  (pages_first_range pages_skip_range : Z * Z) : list Z -> Prop :=
| input_rejected :
    ~ (path_exists env (path_str input_path) = true
       /\ path_is_file env (path_str input_path) = true
       /\ str_lower (suffix input_path) = ".pdf") ->
    failure_cause env input_path output_path pages_first_range
      pages_skip_range []
| open_failed (e : exn) :
    pdf_open env (path_str input_path) = Raise e ->
    failure_cause env input_path output_path pages_first_range
      pages_skip_range []
| ranges_rejected (reader : list (outcome Page)) :
    opens_as env input_path reader ->
    ranges_accepted pages_first_range pages_skip_range
      (Z.of_nat (length reader)) = false ->
    failure_cause env input_path output_path pages_first_range
      pages_skip_range []
| page_unreadable (reader : list (outcome Page)) (seen : list Z) (i : Z) :
    opens_as env input_path reader ->
    ranges_accepted pages_first_range pages_skip_range
      (Z.of_nat (length reader)) = true ->
    (seen ++ [i]) `prefix_of`
      loop_indices pages_first_range pages_skip_range
        (Z.of_nat (length reader)) ->
    (forall p, ~ page_at reader i p) ->
    failure_cause env input_path output_path pages_first_range
      pages_skip_range (seen ++ [i])
| output_failed (reader : list (outcome Page)) (out : list Page) :
    opens_as env input_path reader ->
    ranges_accepted pages_first_range pages_skip_range
      (Z.of_nat (length reader)) = true ->
    Forall2 (page_at reader)
      (loop_indices pages_first_range pages_skip_range
         (Z.of_nat (length reader))) out ->
    ~ writable_with env output_path out ->
    failure_cause env input_path output_path pages_first_range
      pages_skip_range
      (loop_indices pages_first_range pages_skip_range
         (Z.of_nat (length reader))).

(** What a run of [create_exploring_ai_report] from the world [w0] ends
    in. *)
Definition report_post (env : Env Page) (input_path output_path : Path)
  (pages_first_range pages_skip_range : Z * Z) (w0 : World Page)
  (o : outcome bool) (w' : World Page) : Prop :=
  match o with
  | Return b =>
      b = true
      /\ exists reader out,
          opens_as env input_path reader
          /\ ranges_accepted pages_first_range pages_skip_range
               (Z.of_nat (length reader)) = true
          /\ page_reads w' =
               page_reads w0 ++
               loop_indices pages_first_range pages_skip_range
                 (Z.of_nat (length reader))
          /\ Forall2 (page_at reader)
               (loop_indices pages_first_range pages_skip_range
                  (Z.of_nat (length reader))) out
          /\ writable_with env output_path out
          /\ files w' = <[path_str output_path := Some out]> (files w0)
  | Raise e =>
      exists l,
        page_reads w' = page_reads w0 ++ l
        /\ failure_cause env input_path output_path pages_first_range
             pages_skip_range l
  end.


(** The paths [main] passes on. *)
Definition main_input (args : Args) : Path :=
  default (default_path DEFAULT_INPUT_FILE) (input_file args).

Definition main_output (args : Args) : Path :=
  default (default_path DEFAULT_OUTPUT_FILE) (output_file args).

End Vocabulary.

(** ** Sample documents and collaborators *)

(** A document of [n] pages, each page standing for its 1-indexed page
    number. *)
Definition numbered_doc (n : Z) : list Z := seqZ 1 n.

(** Collaborators that never fail: every path exists and opens as [doc],
    every output can be written. *)
Definition obliging_env (doc : list Z) : Env Z := {|
  path_exists := fun _ => true;
  path_is_file := fun _ => true;
  pdf_open := fun _ => Return (Return <$> doc);
  mkdir_parents := fun _ => None;
  open_wb := fun _ => None;
  pdf_write := fun _ _ => None
|}.

Definition blank_world : World Z :=
  {| stdout := []; stderr := []; page_reads := []; files := ∅ |}.

Definition sample_input : Path :=
  {| path_str := "master.pdf"; suffix := ".pdf"; parent := "." |}.

Definition sample_output : Path :=
  {| path_str := "out/personalised.pdf"; suffix := ".pdf"; parent := "out" |}.

(** ** Vocabulary of the further properties *)

Section Effects.
Context {Page : Type}.

(** [m] keeps the relation [R] between the world it starts from and the
    world it ends in. *)
Definition preserves (R : World Page -> World Page -> Prop) {A : Type}
  (m : M Page A) : Prop :=
  forall w, R w (m w).2.

(** Nothing was printed between [w] and [w'], on either stream. *)
Definition same_output (w w' : World Page) : Prop :=
  stdout w' = stdout w /\ stderr w' = stderr w.

(** No file other than [path] was touched between [w] and [w']. *)
Definition same_files_except (path : string) (w w' : World Page) : Prop :=
  forall q, q <> path -> files w' !! q = files w !! q.

(** The world [w] after [reader.pages[i]] was asked for each [i] of
    [indices]. *)
Definition record_reads (w : World Page) (indices : list Z) : World Page :=
  {| stdout := stdout w; stderr := stderr w;
     page_reads := page_reads w ++ indices; files := files w |}.

(** The world [w] after the file at [path] was given the content
    [content]. *)
Definition record_file (w : World Page) (path : string)
  (content : option (list Page)) : World Page :=
  {| stdout := stdout w; stderr := stderr w; page_reads := page_reads w;
     files := <[path := content]> (files w) |}.

(** What [reader.pages[i]] evaluates to. *)
Definition page_outcome (reader : list (outcome Page)) (i : Z)
  : outcome Page :=
  match normalize_index (Z.of_nat (length reader)) i with
  | None => Raise (IndexError "Sequence index out of range")
  | Some j =>
      match reader !! Z.to_nat j with
      | Some o => o
      | None => Raise (IndexError "Sequence index out of range")
      end
  end.

(** Two worlds that differ at most in what was printed. *)
Definition same_effects (w1 w2 : World Page) : Prop :=
  page_reads w1 = page_reads w2 /\ files w1 = files w2.

(** [m1] and [m2] differ at most in what they print. *)
Definition print_equivalent {A : Type} (m1 m2 : M Page A) : Prop :=
  forall w1 w2,
    same_effects w1 w2 ->
    (m1 w1).1 = (m2 w2).1 /\ same_effects (m1 w1).2 (m2 w2).2.

(** What the [except] clauses of [create_exploring_ai_report] make of an
    exception raised inside its [try]. *)
Definition reraised (e : exn) : exn :=
  match e with
  | FileNotFoundError _ | ValueError _ => e
  | _ =>
      if is_Exception e
      then OSError ("Failed to process PDF: " +:+ exn_str e) (Some e)
      else e
  end.

(** The input path passes the three tests of [validate_input_file]. *)
Definition input_valid (env : Env Page) (input_path : Path) : Prop :=
  path_exists env (path_str input_path) = true
  /\ path_is_file env (path_str input_path) = true
  /\ str_lower (suffix input_path) = ".pdf".

(** The suffix [.pdf] in every mix of upper and lower case. *)
Definition pdf_suffixes : list string :=
  [".pdf"; ".pdF"; ".pDf"; ".pDF"; ".Pdf"; ".PdF"; ".PDf"; ".PDF"].

(** The file [generate_personality_report] writes for a personality. *)
Definition personality_output (personality_type : string) : string :=
  "STT25_Personalised_" +:+ personality_type +:+ "_AI.pdf".

(** The pages of the report for the personality whose summary is at the
    0-indexed page [t]: the common introduction, that summary, and the
    pages from the fourteenth on. *)
Definition report_pages (doc : list Page) (t : Z) : list Page :=
  take 9 doc ++ take 1 (drop (Z.to_nat t) doc) ++ drop 13 doc.

End Effects.

(** Collaborators as [env], except that writing to [path] fails with [e]. *)
Definition with_write_failure (env : Env Z) (path : string) (e : exn)
  : Env Z := {|
  path_exists := path_exists env;
  path_is_file := path_is_file env;
  pdf_open := pdf_open env;
  mkdir_parents := mkdir_parents env;
  open_wb := open_wb env;
  pdf_write := fun p writer =>
    if String.eqb p path then Some e else pdf_write env p writer
|}.

(** Collaborators as [env], except that no document opens: the codec
    fails with [e]. *)
Definition with_open_failure (env : Env Z) (e : exn) : Env Z := {|
  path_exists := path_exists env;
  path_is_file := path_is_file env;
  pdf_open := fun _ => Raise e;
  mkdir_parents := mkdir_parents env;
  open_wb := open_wb env;
  pdf_write := pdf_write env
|}.

(** Collaborators as [env], except that no path exists. *)
Definition with_nothing_on_disk (env : Env Z) : Env Z := {|
  path_exists := fun _ => false;
  path_is_file := fun _ => false;
  pdf_open := pdf_open env;
  mkdir_parents := mkdir_parents env;
  open_wb := open_wb env;
  pdf_write := pdf_write env
|}.

(** Collaborators as [env], except that page [k] (0-indexed) of every
    document fails to read, with [e]. *)
Definition with_unreadable_page (env : Env Z) (k : nat) (e : exn) : Env Z := {|
  path_exists := path_exists env;
  path_is_file := path_is_file env;
  pdf_open := fun p =>
    match pdf_open env p with
    | Return pages => Return (<[k := Raise e]> pages)
    | Raise e' => Raise e'
    end;
  mkdir_parents := mkdir_parents env;
  open_wb := open_wb env;
  pdf_write := pdf_write env
|}.

(** ** Reasoning rules for the monad *)

Section Rules.
Context {Page : Type}.
Implicit Types (w : World Page).

Lemma wp_ret {A} (a : A) (Q : outcome A -> World Page -> Prop) w :
  Q (Return a) w -> wp (ret a) Q w.
Proof. done. Qed.

Lemma wp_raise {A} (e : exn) (Q : outcome A -> World Page -> Prop) w :
  Q (Raise e) w -> wp (raise e) Q w.
Proof. done. Qed.

Lemma wp_bind {A B} (m : M Page A) (k : A -> M Page B) Q w :
  wp m (fun o w' => match o with
                    | Return a => wp (k a) Q w'
                    | Raise e => Q (Raise e) w'
                    end) w ->
  wp (bind m k) Q w.
Proof. unfold wp, bind. by destruct (m w) as [[a|e] w']. Qed.

Lemma wp_try_except {A} (body : M Page A) (handler : exn -> M Page A) Q w :
  wp body (fun o w' => match o with
                       | Return a => Q (Return a) w'
                       | Raise e => wp (handler e) Q w'
                       end) w ->
  wp (try_except body handler) Q w.
Proof. unfold wp, try_except. by destruct (body w) as [[a|e] w']. Qed.

Lemma wp_mono {A} (m : M Page A) (Q Q' : outcome A -> World Page -> Prop) w :
  wp m Q w -> (forall o w', Q o w' -> Q' o w') -> wp m Q' w.
Proof. unfold wp. auto. Qed.

Lemma only_prints_print (s : string) : only_prints (print (Page:=Page) s).
Proof. by intros w. Qed.

Lemma only_prints_eprint (s : string) : only_prints (eprint (Page:=Page) s).
Proof. by intros w. Qed.

Lemma only_prints_when (c : bool) (m : M Page unit) :
  only_prints m -> only_prints (when c m).
Proof. intros Hm. by destruct c. Qed.

Lemma only_prints_bind (m : M Page unit) (k : unit -> M Page unit) :
  only_prints m -> only_prints (k tt) -> only_prints (bind m k).
Proof.
  intros Hm Hk w. unfold bind.
  destruct (Hm w) as (Ho & Hr & Hf).
  destruct (m w) as [[[]|e] w']; simpl in *; [|done].
  destruct (Hk w') as (Ho' & Hr' & Hf'). split_and!; congruence.
Qed.

Lemma wp_only_prints (m : M Page unit) (Q : outcome unit -> World Page -> Prop) w :
  only_prints m ->
  (forall w', page_reads w' = page_reads w -> files w' = files w ->
              Q (Return tt) w') ->
  wp m Q w.
Proof.
  intros Hm HQ. unfold wp. destruct (Hm w) as (-> & Hr & Hf). by apply HQ.
Qed.

Lemma wp_lift_outcome {A} (o : outcome A) (Q : outcome A -> World Page -> Prop) w :
  Q o w -> wp (lift_outcome o) Q w.
Proof. done. Qed.

Lemma wp_lift_status (o : option exn) (Q : outcome unit -> World Page -> Prop) w :
  match o with None => Q (Return tt) w | Some e => Q (Raise e) w end ->
  wp (lift_status o) Q w.
Proof. by destruct o. Qed.

Lemma wp_pages_getitem (reader : list (outcome Page)) (i : Z)
  (Q : outcome Page -> World Page -> Prop) w :
  (forall o,
     match o with
     | Return p => page_at reader i p
     | Raise _ => forall p, ~ page_at reader i p
     end ->
     Q o {| stdout := stdout w; stderr := stderr w;
            page_reads := page_reads w ++ [i]; files := files w |}) ->
  wp (pages_getitem reader i) Q w.
Proof.
  intros HQ. unfold wp, pages_getitem.
  destruct (normalize_index _ i) as [j|] eqn:Hj; simpl.
  - destruct (reader !! Z.to_nat j) as [[p|e]|] eqn:Hp; simpl; apply HQ.
    + by exists j.
    + intros p (j' & Hj' & Hp'). congruence.
    + intros p (j' & Hj' & Hp'). congruence.
  - apply HQ. intros p (j' & Hj' & Hp'). congruence.
Qed.

Lemma wp_for_each {A S} (body : A -> S -> M Page S)
  (I : list A -> S -> World Page -> Prop)
  (Q : outcome S -> World Page -> Prop) (xs : list A) :
  forall (seen : list A) (s : S) w,
    I seen s w ->
    (forall seen' x rest s' w',
       seen ++ xs = seen' ++ x :: rest ->
       I seen' s' w' ->
       wp (body x s')
          (fun o w'' => match o with
                        | Return s'' => I (seen' ++ [x]) s'' w''
                        | Raise e => Q (Raise e) w''
                        end) w') ->
    (forall s' w', I (seen ++ xs) s' w' -> Q (Return s') w') ->
    wp (for_each xs body s) Q w.
Proof.
  induction xs as [|x xs IH]; intros seen s w HI Hstep Hend; simpl.
  - apply wp_ret, Hend. by rewrite app_nil_r.
  - apply wp_bind. eapply wp_mono; [by eapply Hstep|].
    intros [s'|e] w'; [|done]. intros HI'.
    apply (IH (seen ++ [x])); [done| |].
    + intros seen' x' rest s'' w''. rewrite <-app_assoc. apply Hstep.
    + intros s'' w''. rewrite <-app_assoc. apply Hend.
Qed.

(** The copying loop of [create_exploring_ai_report]: it stops at the
    first index that cannot be read, and otherwise appends the pages read
    and counts them. *)
Lemma wp_copy_loop (reader : list (outcome Page)) (indices : list Z)
  (st : list Page * Z) (Q : outcome (list Page * Z) -> World Page -> Prop) w :
  (forall seen i rest e w',
     indices = seen ++ i :: rest ->
     (forall p, ~ page_at reader i p) ->
     page_reads w' = page_reads w ++ seen ++ [i] ->
     files w' = files w ->
     Q (Raise e) w') ->
  (forall ps w',
     Forall2 (page_at reader) indices ps ->
     page_reads w' = page_reads w ++ indices ->
     files w' = files w ->
     Q (Return (st.1 ++ ps, st.2 + Z.of_nat (length indices))) w') ->
  wp (for_each indices (copy_page reader) st) Q w.
Proof.
  intros Hfail Hdone.
  apply (wp_for_each _
           (fun seen s w' =>
              exists ps, Forall2 (page_at reader) seen ps
                         /\ s = (st.1 ++ ps, st.2 + Z.of_nat (length seen))
                         /\ page_reads w' = page_reads w ++ seen
                         /\ files w' = files w) _ _ []).
  - exists []. rewrite !app_nil_r, Z.add_0_r. by destruct st.
  - intros seen i rest s' w' Hsplit (ps & Hps & -> & Hreads & Hfiles).
    unfold copy_page. apply wp_bind, wp_pages_getitem.
    intros [p|e] Hp; simpl.
    + exists (ps ++ [p]). split_and!; [|f_equal|by rewrite Hreads, app_assoc|done].
      * apply Forall2_app; [done|]. by constructor.
      * by rewrite <-app_assoc.
      * rewrite length_app. simpl. lia.
    + eapply Hfail; [exact Hsplit|exact Hp| |done].
      simpl. by rewrite Hreads, app_assoc.
  - intros s' w' (ps & Hps & -> & Hreads & Hfiles). by apply Hdone.
Qed.

Lemma wp_validate_input_file (env : Env Page) (input_path : Path)
  (Q : outcome unit -> World Page -> Prop) w :
  (path_exists env (path_str input_path) = true ->
   path_is_file env (path_str input_path) = true ->
   str_lower (suffix input_path) = ".pdf" ->
   Q (Return tt) w) ->
  (forall e,
     ~ (path_exists env (path_str input_path) = true
        /\ path_is_file env (path_str input_path) = true
        /\ str_lower (suffix input_path) = ".pdf") ->
     report_raises e ->
     Q (Raise e) w) ->
  wp (validate_input_file env input_path) Q w.
Proof.
  intros Hok Hbad. unfold validate_input_file.
  apply wp_bind.
  destruct (path_exists env _) eqn:He; simpl;
    [apply wp_ret|apply wp_raise, Hbad; [intros (?&?&?); congruence|done]].
  apply wp_bind.
  destruct (path_is_file env _) eqn:Hf; simpl;
    [apply wp_ret|apply wp_raise, Hbad; [intros (?&?&?); congruence|done]].
  destruct (String.eqb _ _) eqn:Hs; simpl.
  - apply wp_ret, Hok; [done..|]. by apply String.eqb_eq.
  - apply wp_raise, Hbad; [|done].
    intros (_ & _ & Heq). apply String.eqb_neq in Hs. done.
Qed.

Lemma wp_open_and_write (env : Env Page) (path : string) (writer : list Page)
  (Q : outcome unit -> World Page -> Prop) w :
  (forall w',
     open_wb env path = None ->
     pdf_write env path writer = None ->
     page_reads w' = page_reads w ->
     files w' = <[path := Some writer]> (files w) ->
     Q (Return tt) w') ->
  (forall e w',
     ~ (open_wb env path = None /\ pdf_write env path writer = None) ->
     page_reads w' = page_reads w ->
     Q (Raise e) w') ->
  wp (open_and_write env path writer) Q w.
Proof.
  intros Hok Hbad. unfold open_and_write.
  apply wp_bind, wp_lift_status.
  destruct (open_wb env path) as [e|] eqn:Ho;
    [apply Hbad; [intros [??]; congruence|done]|].
  apply wp_bind. unfold wp at 1. simpl.
  apply wp_bind, wp_lift_status.
  destruct (pdf_write env path writer) as [e|] eqn:Hw;
    [apply Hbad; [intros [??]; congruence|done]|].
  unfold wp. simpl. apply Hok; [done..|].
  by rewrite insert_insert_eq.
Qed.

Create HintDb prints.
#[local] Hint Resolve only_prints_print only_prints_eprint only_prints_when
  only_prints_bind : prints.

(** Step over a block of [print] statements. *)
Ltac wp_prints :=
  apply wp_bind, wp_only_prints; [solve [auto 10 with prints]|];
  let w' := fresh "w" in
  let Hr := fresh "Hr" in
  let Hf := fresh "Hf" in
  intros w' Hr Hf.

(** Every way out of [create_exploring_ai_report], with what it read and
    wrote on the way. *)
Lemma create_report_spec (env : Env Page) (input_path output_path : Path)
  (pages_first_range pages_skip_range : Z * Z) (verbose : bool) w :
  wp (create_exploring_ai_report env input_path output_path
        pages_first_range pages_skip_range verbose)
     (fun o w' =>
        report_post env input_path output_path pages_first_range
          pages_skip_range w o w'
        /\ match o with Return _ => True | Raise e => report_raises e end) w.
Proof.
  unfold create_exploring_ai_report. cbv zeta.
  apply wp_bind, wp_validate_input_file.
  2:{ intros e Hbad He. split; [|done]. exists []. rewrite app_nil_r.
      split; [done|]. by apply input_rejected. }
  intros Hex Hfile Hsuf.
  apply wp_try_except.
  apply (wp_mono _ (report_post env input_path output_path pages_first_range
                      pages_skip_range w)).
  2:{ intros [b|e] w'; [done|]. intros (l & Hr & Hc).
      assert (forall e' w'', page_reads w'' = page_reads w' ->
                report_raises e' ->
                report_post env input_path output_path pages_first_range
                  pages_skip_range w (Raise e') w'' /\ report_raises e') as Hre.
      { intros e' w'' Hr' He'. split; [|done]. exists l. by rewrite Hr'. }
      destruct e; simpl; try (by apply wp_raise, Hre);
        wp_prints; by apply wp_raise, Hre. }
  wp_prints.
  apply wp_bind, wp_lift_outcome.
  destruct (pdf_open env (path_str input_path)) as [reader|e] eqn:Hopen.
  2:{ exists []. rewrite app_nil_r. split; [done|]. by eapply open_failed. }
  assert (opens_as env input_path reader) as Hopens by done.
  set (total_pages := Z.of_nat (length reader)).
  wp_prints.
  destruct (ranges_accepted pages_first_range pages_skip_range total_pages)
    eqn:Hacc.
  2:{ assert (forall e, report_post env input_path output_path
                pages_first_range pages_skip_range w (Raise e) w1) as Hrej.
      { intros e. exists []. rewrite app_nil_r. split; [congruence|].
        by eapply ranges_rejected. }
      unfold ranges_accepted in Hacc.
      apply wp_bind.
      destruct (pages_first_range.2 >? total_pages); [by apply wp_raise|].
      apply wp_ret, wp_bind.
      destruct (pages_first_range.1 - 1 <? 0); [by apply wp_raise|].
      apply wp_ret, wp_bind.
      destruct (pages_skip_range.1 - 1 >=? total_pages); [by apply wp_raise|].
      done. }
  pose proof Hacc as Hacc'. unfold ranges_accepted in Hacc'.
  apply andb_prop in Hacc' as [[H1 H2]%andb_prop H3].
  apply negb_true_iff in H1, H2, H3. rewrite H1, H2, H3.
  do 3 apply wp_bind, wp_ret.
  wp_prints.
  apply wp_bind, wp_copy_loop.
  { intros seen i rest e w' Hsplit Hbad Hr' Hf'.
    exists (seen ++ [i]). split; [congruence|].
    eapply page_unreadable; [done..| |done].
    unfold loop_indices. fold total_pages. rewrite Hsplit.
    exists (rest ++ (if pages_skip_range.2 <? total_pages
                     then py_range pages_skip_range.2 total_pages else [])).
    by rewrite <-!app_assoc. }
  intros ps1 w3 Hps1 Hr3 Hf3. simpl.
  set (tail := if pages_skip_range.2 <? total_pages
               then py_range pages_skip_range.2 total_pages else []).
  apply wp_bind.
  apply (wp_mono _
    (fun o w4 =>
       match o with
       | Return st =>
           exists ps2, Forall2 (page_at reader) tail ps2
                       /\ st.1 = ps1 ++ ps2
                       /\ page_reads w4 = page_reads w3 ++ tail
                       /\ files w4 = files w3
       | Raise e =>
           report_post env input_path output_path pages_first_range
             pages_skip_range w (Raise e) w4
       end)).
  { subst tail. destruct (pages_skip_range.2 <? total_pages) eqn:Hlt.
    - wp_prints. apply wp_copy_loop.
      + intros seen i rest e w' Hsplit Hbad Hr' Hf'.
        exists (py_range (pages_first_range.1 - 1) pages_first_range.2
                ++ seen ++ [i]).
        split; [rewrite Hr', Hr2, Hr3, <-!app_assoc; congruence|].
        rewrite app_assoc.
        eapply page_unreadable; [done..| |done].
        unfold loop_indices. fold total_pages. rewrite Hlt, Hsplit.
        exists rest. by rewrite <-!app_assoc.
      + intros ps2 w' Hps2 Hr' Hf'. exists ps2.
        split_and!; [done|done|congruence|congruence].
    - apply wp_ret. exists []. rewrite !app_nil_r.
      split_and!; [constructor|done..]. }
  intros [st|e] w4; [|done].
  intros (ps2 & Hps2 & Hst & Hr4 & Hf4).
  assert (Forall2 (page_at reader)
            (loop_indices pages_first_range pages_skip_range total_pages)
            st.1) as Hall.
  { rewrite Hst. by apply Forall2_app. }
  assert (page_reads w4 = page_reads w ++
            loop_indices pages_first_range pages_skip_range total_pages)
    as Hreads.
  { unfold loop_indices. fold tail. rewrite Hr4, Hr3, <-app_assoc.
    f_equal. congruence. }
  assert (forall e w', page_reads w' = page_reads w4 ->
            ~ writable_with env output_path st.1 ->
            report_post env input_path output_path pages_first_range
              pages_skip_range w (Raise e) w') as Hout.
  { intros e w' Hr' Hbad. eexists. split; [by rewrite Hr'|].
    by eapply output_failed. }
  apply wp_bind, wp_lift_status.
  destruct (mkdir_parents env (parent output_path)) as [e|] eqn:Hmk.
  { apply Hout; [done|]. intros (? & _). congruence. }
  wp_prints.
  apply wp_bind, wp_open_and_write.
  2:{ intros e w' Hbad Hr'. apply Hout; [congruence|].
      intros (_ & ? & ?). by apply Hbad. }
  intros w' Hop Hwr Hr' Hf'.
  wp_prints. apply wp_ret. split; [done|].
  exists reader, st.1. subst total_pages.
  split_and!; [done|done|congruence|done|done|congruence].
Qed.

Lemma range_error_accepted (first skip : Z * Z) (total : Z) :
  range_error first skip total = None <-> ranges_accepted first skip total = true.
Proof.
  unfold range_error, ranges_accepted.
  destruct (first.2 >? total), (first.1 - 1 <? 0), (skip.1 - 1 >=? total);
    simpl; split; congruence.
Qed.

(** A failed range check ends the run with its [ValueError], before any
    page is read or any file touched. *)
Lemma create_report_rejects (env : Env Page) (input_path output_path : Path)
  (pages_first_range pages_skip_range : Z * Z) (verbose : bool) w
  (reader : list (outcome Page)) (e : exn) :
  opens_as env input_path reader ->
  range_error pages_first_range pages_skip_range (Z.of_nat (length reader))
    = Some e ->
  wp (create_exploring_ai_report env input_path output_path
        pages_first_range pages_skip_range verbose)
     (fun o w' => o = Raise e /\ page_reads w' = page_reads w
                  /\ files w' = files w) w.
Proof.
  intros (Hex & Hfile & Hsuf & Hopen) Herr.
  unfold create_exploring_ai_report. cbv zeta.
  apply wp_bind. unfold validate_input_file.
  rewrite Hex, Hfile, Hsuf. simpl. unfold wp at 1. simpl.
  apply wp_try_except.
  apply (wp_mono _ (fun o w' => o = Raise e /\ page_reads w' = page_reads w
                                /\ files w' = files w)).
  2:{ intros o w' (-> & Hr & Hf).
      assert (exists msg, e = ValueError msg) as [msg ->].
      { unfold range_error in Herr.
        repeat match type of Herr with
               | (if ?c then _ else _) = _ => destruct c
               end; inversion Herr; eauto. }
      simpl. wp_prints. apply wp_raise. split_and!; congruence. }
  wp_prints. rewrite Hopen. apply wp_bind, wp_lift_outcome.
  wp_prints. unfold range_error in Herr.
  apply wp_bind.
  destruct (pages_first_range.2 >? _).
  { apply wp_raise. split_and!; congruence. }
  apply wp_ret, wp_bind.
  destruct (pages_first_range.1 - 1 <? 0).
  { apply wp_raise. split_and!; congruence. }
  apply wp_ret, wp_bind.
  destruct (pages_skip_range.1 - 1 >=? _); [|done].
  apply wp_raise. split_and!; congruence.
Qed.

(** *** What the selection is, for a document that reads well *)

Lemma normalize_index_in_range (n i : Z) :
  0 <= i < n -> normalize_index n i = Some i.
Proof.
  intros Hi. unfold normalize_index.
  assert ((i <? 0) = false) as Hlt by (apply Z.ltb_ge; lia).
  assert ((i >=? n) = false) as Hge
    by (rewrite Z.geb_leb; apply Z.leb_gt; lia).
  rewrite Hlt. simpl. by rewrite Hlt, Hge.
Qed.

Lemma page_at_readable (doc : list Page) (i : Z) (p : Page) :
  0 <= i < Z.of_nat (length doc) ->
  page_at (Return <$> doc) i p <-> doc !! Z.to_nat i = Some p.
Proof.
  intros Hi. unfold page_at. rewrite length_fmap.
  rewrite normalize_index_in_range by done. split.
  - intros (j & [= <-] & Hp). rewrite list_lookup_fmap in Hp.
    destruct (doc !! Z.to_nat i); simpl in Hp; congruence.
  - intros Hp. exists i. split; [done|].
    by rewrite list_lookup_fmap, Hp.
Qed.

Lemma page_at_readable_exists (doc : list Page) (i : Z) :
  0 <= i < Z.of_nat (length doc) -> exists p, page_at (Return <$> doc) i p.
Proof.
  intros Hi. destruct (lookup_lt_is_Some_2 doc (Z.to_nat i)) as [p Hp]; [lia|].
  exists p. by apply page_at_readable.
Qed.

Lemma loop_indices_in_range (first skip : Z * Z) (total : Z) :
  ranges_accepted first skip total = true ->
  0 <= skip.2 ->
  Forall (fun i => 0 <= i < total) (loop_indices first skip total).
Proof.
  unfold ranges_accepted, loop_indices, py_range. intros Hacc Hskip.
  apply andb_prop in Hacc as [[H1 H2]%andb_prop _].
  apply negb_true_iff in H1, H2.
  destruct (Z.gtb_spec first.2 total); [done|].
  destruct (Z.ltb_spec (first.1 - 1) 0); [done|].
  apply Forall_app. split.
  - apply Forall_seqZ. lia.
  - destruct (skip.2 <? total); [|constructor].
    apply Forall_seqZ. lia.
Qed.

Lemma pages_in_range (doc : list Page) (indices : list Z) (out : list Page) :
  Forall (fun i => 0 <= i < Z.of_nat (length doc)) indices ->
  Forall2 (page_at (Return <$> doc)) indices out ->
  Forall2 (fun i p => doc !! Z.to_nat i = Some p) indices out.
Proof.
  intros Hin Hout. induction Hout as [|i p l k Hp _ IH]; [constructor|].
  inversion Hin; subst. constructor; [|by apply IH].
  by apply page_at_readable.
Qed.

(** Consecutive indices select a slice of the document. *)
Lemma pages_of_range (doc : list Page) (a len : Z) (out : list Page) :
  0 <= a ->
  Forall2 (fun i p => doc !! Z.to_nat i = Some p) (seqZ a len) out ->
  out = take (Z.to_nat len) (drop (Z.to_nat a) doc).
Proof.
  intros Ha Hout. apply list_eq. intros k.
  pose proof (Forall2_length _ _ _ Hout) as Hlen. rewrite length_seqZ in Hlen.
  destruct (decide (k < Z.to_nat len)%nat) as [Hk|Hk].
  - rewrite lookup_take_lt, lookup_drop by done.
    destruct (Forall2_lookup_l _ _ _ k (a + Z.of_nat k) Hout) as (p & Hp & Hdoc).
    { apply lookup_seqZ. lia. }
    rewrite Hp, <-Hdoc. f_equal. lia.
  - rewrite lookup_take_ge by lia. apply lookup_ge_None. lia.
Qed.

Lemma readable_opens_as (env : Env Page) (input_path : Path)
  (doc : list Page) (reader : list (outcome Page)) :
  readable env input_path doc -> opens_as env input_path reader ->
  reader = Return <$> doc.
Proof. intros (_ & _ & _ & H1) (_ & _ & _ & H2). congruence. Qed.

(** A run on a document that reads well reads exactly the selection, and
    writes it out when the output can be written. *)
Lemma create_report_runs (env : Env Page) (input_path output_path : Path)
  (pages_first_range pages_skip_range : Z * Z) (verbose : bool) w
  (doc : list Page) :
  let total_pages := Z.of_nat (length doc) in
  let indices := loop_indices pages_first_range pages_skip_range total_pages in
  let r := create_exploring_ai_report env input_path output_path
             pages_first_range pages_skip_range verbose w in
  readable env input_path doc ->
  ranges_accepted pages_first_range pages_skip_range total_pages = true ->
  0 <= pages_skip_range.2 ->
  exists out,
    Forall2 (fun i p => doc !! Z.to_nat i = Some p) indices out
    /\ page_reads r.2 = page_reads w ++ indices
    /\ (writable env output_path ->
        r.1 = Return true
        /\ files r.2 = <[path_str output_path := Some out]> (files w)).
Proof.
  intros total_pages indices r Hread Hacc Hskip.
  subst total_pages indices.
  pose proof (loop_indices_in_range _ _ _ Hacc Hskip) as Hin.
  assert (opens_as env input_path (Return <$> doc)) as Hopens by done.
  destruct (create_report_spec env input_path output_path pages_first_range
              pages_skip_range verbose w) as [Hpost _].
  fold r in Hpost. destruct r as [[b|e] w']; simpl in *.
  - destruct Hpost as (-> & reader & out & Hop & _ & Hr & Hout & _ & Hf).
    rewrite (readable_opens_as _ _ _ _ Hread Hop), length_fmap in *.
    exists out. split_and!; [by apply pages_in_range|done|done].
  - destruct Hpost as (l & Hr & Hc).
    destruct Hc as [Hbad|e' Hopen|reader Hop Hrej|reader seen i Hop _ Hpre Hbad
                   |reader out Hop _ Hout Hw].
    + destruct Hbad. by destruct Hread as (? & ? & ? & _).
    + destruct Hread as (_ & _ & _ & ?). congruence.
    + rewrite (readable_opens_as _ _ _ _ Hread Hop), length_fmap in Hrej.
      congruence.
    + rewrite (readable_opens_as _ _ _ _ Hread Hop), length_fmap in *.
      destruct (page_at_readable_exists doc i) as [p Hp]; [|by destruct (Hbad p)].
      destruct Hpre as [rest Hpre].
      rewrite Hpre in Hin. apply Forall_app in Hin as [Hin _].
      apply Forall_app in Hin as [_ Hin]. by inversion Hin.
    + rewrite (readable_opens_as _ _ _ _ Hread Hop), length_fmap in *.
      exists out. split_and!; [by apply pages_in_range|done|].
      intros (Hmk & Ho & Hwr). destruct Hw. by split_and!.
Qed.

Lemma loop_indices_NoDup (first skip : Z * Z) (total : Z) :
  first.2 <= skip.2 -> NoDup (loop_indices first skip total).
Proof.
  intros Hle. unfold loop_indices, py_range. apply NoDup_app. split_and!.
  - apply NoDup_seqZ.
  - intros i Hi. destruct (skip.2 <? total); [|by apply not_elem_of_nil].
    rewrite elem_of_seqZ in *. lia.
  - destruct (skip.2 <? total); [apply NoDup_seqZ|constructor].
Qed.

Lemma loop_indices_default (total : Z) :
  13 <= total ->
  loop_indices (1, 10) (11, 13) total
  = [0; 1; 2; 3; 4; 5; 6; 7; 8; 9] ++ seqZ 13 (total - 13).
Proof.
  intros Hn. unfold loop_indices, py_range. simpl. f_equal.
  destruct (Z.ltb_spec 13 total); [done|].
  by rewrite seqZ_nil by lia.
Qed.

(** The three checks, as inequalities. *)
Lemma ranges_accepted_iff (first skip : Z * Z) (total : Z) :
  ranges_accepted first skip total = true
  <-> first.2 <= total /\ 1 <= first.1 /\ skip.1 <= total.
Proof.
  unfold ranges_accepted.
  rewrite !andb_true_iff, !negb_true_iff, Z.gtb_ltb, Z.geb_leb.
  rewrite !Z.ltb_ge, Z.leb_gt. lia.
Qed.

Lemma ranges_accepted_default (total : Z) :
  13 <= total -> ranges_accepted (1, 10) (11, 13) total = true.
Proof. intros Hn. apply ranges_accepted_iff. simpl. lia. Qed.

Lemma default_selection_pages (doc out : list Page) :
  13 <= Z.of_nat (length doc) ->
  Forall2 (fun i p => doc !! Z.to_nat i = Some p)
    ([0; 1; 2; 3; 4; 5; 6; 7; 8; 9] ++ seqZ 13 (Z.of_nat (length doc) - 13))
    out ->
  out = take 10 doc ++ drop 13 doc.
Proof.
  intros Hn Hout.
  apply Forall2_app_inv_l in Hout as (o1 & o2 & Ho1 & Ho2 & ->).
  apply (pages_of_range doc 0 10) in Ho1; [|done].
  apply pages_of_range in Ho2; [|done].
  rewrite Ho1, Ho2. simpl. rewrite drop_0. f_equal.
  apply take_ge. rewrite length_drop. lia.
Qed.

Lemma opens_as_inj (env : Env Page) (input_path : Path)
  (reader reader' : list (outcome Page)) :
  opens_as env input_path reader -> opens_as env input_path reader' ->
  reader' = reader.
Proof. intros (_ & _ & _ & H1) (_ & _ & _ & H2). congruence. Qed.

(** What a run reads is an initial segment of the selection, and nothing
    unless the ranges were accepted. *)
Lemma create_report_reads (env : Env Page) (input_path output_path : Path)
  (pages_first_range pages_skip_range : Z * Z) (verbose : bool) w :
  let r := create_exploring_ai_report env input_path output_path
             pages_first_range pages_skip_range verbose w in
  exists l,
    page_reads r.2 = page_reads w ++ l
    /\ (l = []
        \/ exists reader,
             opens_as env input_path reader
             /\ ranges_accepted pages_first_range pages_skip_range
                  (Z.of_nat (length reader)) = true
             /\ l `prefix_of` loop_indices pages_first_range pages_skip_range
                                (Z.of_nat (length reader))).
Proof.
  intros r.
  destruct (create_report_spec env input_path output_path pages_first_range
              pages_skip_range verbose w) as [Hpost _].
  fold r in Hpost. destruct r as [[b|e] w']; simpl in *.
  - destruct Hpost as (_ & reader & out & Hop & Hacc & Hr & _).
    eexists. split; [exact Hr|]. right. by exists reader.
  - destruct Hpost as (l & Hr & Hc). exists l. split; [done|].
    destruct Hc; eauto 10.
Qed.

Lemma prefix_Forall {A} (P : A -> Prop) (l k : list A) :
  l `prefix_of` k -> Forall P k -> Forall P l.
Proof. intros [rest ->] Hk. by apply Forall_app in Hk as [? _]. Qed.

(** A skip range that ends at or beyond the last page leaves the keep
    range alone. *)
Lemma skip_to_the_end (env : Env Page) (input_path output_path : Path)
  (pages_first_range pages_skip_range : Z * Z) (verbose : bool) w
  (doc : list Page) :
  let total_pages := Z.of_nat (length doc) in
  let r := create_exploring_ai_report env input_path output_path
             pages_first_range pages_skip_range verbose w in
  readable env input_path doc ->
  ranges_accepted pages_first_range pages_skip_range total_pages = true ->
  total_pages <= pages_skip_range.2 ->
  page_reads r.2
  = page_reads w ++ py_range (pages_first_range.1 - 1) pages_first_range.2
  /\ (writable env output_path -> r.1 = Return true).
Proof.
  intros total_pages r Hread Hacc Hskip.
  destruct (create_report_runs env input_path output_path pages_first_range
              pages_skip_range verbose w doc Hread Hacc)
    as (out & _ & Hr & Hw); [lia|].
  fold r total_pages in Hr, Hw. unfold loop_indices in Hr.
  destruct (Z.ltb_spec pages_skip_range.2 total_pages); [lia|].
  rewrite app_nil_r in Hr. split; [done|]. intros Hwr. by apply Hw.
Qed.

(** What [main] makes of the outcome of [create_exploring_ai_report]. *)
Lemma main_exit_code (env : Env Page) (args : Args) w :
  (main env (Namespace args) w).1
  = Ends
      (Return
         match (create_exploring_ai_report env (main_input args)
                  (main_output args) (first_range args) (skip_range args)
                  (negb (quiet args)) w).1 with
         | Return success => if success then 0 else 1
         | Raise KeyboardInterrupt => 130
         | Raise _ => 1
         end).
Proof.
  unfold main, ends, try_except, bind, main_input, main_output.
  destruct (input_file args), (output_file args); simpl;
    match goal with
    | |- context [create_exploring_ai_report ?e ?i ?o ?f ?s ?v ?w] =>
        destruct (create_exploring_ai_report e i o f s v w) as [[b|[]] w']
    end; done.
Qed.


End Rules.

(** ** The claims *)

Section Claims.
Context {Page : Type}.
Implicit Types (env : Env Page) (w : World Page) (doc : list Page).

(** C1. For every document of at least 13 pages, the run with keep range
    (1,10) and skip range (11,13) reads exactly the 0-indexed pages 0..9
    followed by 13..totalPages-1, each part ascending and no index twice;
    when the output can be written it returns [True] and the file holds
    those pages of the source. *)
Theorem C1_default_selection env (input_path output_path : Path) doc
  (verbose : bool) w :
  readable env input_path doc ->
  13 <= Z.of_nat (length doc) ->
  let r := create_exploring_ai_report env input_path output_path
             (1, 10) (11, 13) verbose w in
  let selection :=
    [0; 1; 2; 3; 4; 5; 6; 7; 8; 9] ++ seqZ 13 (Z.of_nat (length doc) - 13) in
  page_reads r.2 = page_reads w ++ selection
  /\ NoDup selection
  /\ (writable env output_path ->
      r.1 = Return true
      /\ files r.2 !! path_str output_path
         = Some (Some (take 10 doc ++ drop 13 doc))).
Proof.
  intros Hread Hn r selection.
  destruct (create_report_runs env input_path output_path (1, 10) (11, 13)
              verbose w doc Hread) as (out & Hout & Hr & Hw);
    [by apply ranges_accepted_default|done|].
  fold r in Hr, Hw. rewrite loop_indices_default in Hr, Hout by done.
  fold selection in Hr, Hout. split_and!; [done| |].
  - subst selection. rewrite <-loop_indices_default by done.
    by apply loop_indices_NoDup.
  - intros Hwr. destruct (Hw Hwr) as [Hret Hf]. split; [done|].
    rewrite Hf, lookup_insert_eq. do 2 f_equal.
    by apply default_selection_pages.
Qed.

(** C2. For a 20-page source, the run with first range (1,10) and skip
    range (11,13) writes a 17-page document whose pages 1-10 are source
    pages 1-10 and whose pages 11-17 are source pages 14-20, in that
    order; and whenever a run returns, the document it wrote has as many
    pages as indices were resolved, page for page. *)
Theorem C2_output_document :
  (forall env (input_path output_path : Path) doc (verbose : bool) w,
     readable env input_path doc ->
     writable env output_path ->
     length doc = 20%nat ->
     let r := create_exploring_ai_report env input_path output_path
                (1, 10) (11, 13) verbose w in
     r.1 = Return true
     /\ exists out,
         files r.2 !! path_str output_path = Some (Some out)
         /\ length out = 17%nat
         /\ (forall k, (k < 10)%nat -> out !! k = doc !! k)
         /\ (forall k, (10 <= k < 17)%nat -> out !! k = doc !! (k + 3)%nat))
  /\ (forall env (input_path output_path : Path)
        (pages_first_range pages_skip_range : Z * Z) (verbose : bool) w b,
        let r := create_exploring_ai_report env input_path output_path
                   pages_first_range pages_skip_range verbose w in
        r.1 = Return b ->
        exists reader out pages,
          opens_as env input_path reader
          /\ page_reads r.2 = page_reads w ++ pages
          /\ files r.2 !! path_str output_path = Some (Some out)
          /\ length out = length pages
          /\ Forall2 (page_at reader) pages out).
Proof.
  split.
  - intros env input_path output_path doc verbose w Hread Hwr Hlen r.
    assert (13 <= Z.of_nat (length doc)) as Hn by lia.
    destruct (create_report_runs env input_path output_path (1, 10) (11, 13)
                verbose w doc Hread) as (out & Hout & _ & Hw);
      [by apply ranges_accepted_default|done|].
    destruct (Hw Hwr) as [Hret Hf]. fold r in Hret, Hf.
    split; [done|]. exists out.
    rewrite loop_indices_default in Hout by done.
    apply default_selection_pages in Hout; [|done]. subst out.
    split_and!.
    + by rewrite Hf, lookup_insert_eq.
    + rewrite length_app, length_take, length_drop. lia.
    + intros k Hk. rewrite lookup_app_l by (rewrite length_take; lia).
      by apply lookup_take_lt.
    + intros k Hk. rewrite lookup_app_r by (rewrite length_take; lia).
      rewrite length_take, lookup_drop. f_equal. lia.
  - intros env input_path output_path first skip verbose w b r Hret.
    destruct (create_report_spec env input_path output_path first skip
                verbose w) as [Hpost _].
    fold r in Hpost. rewrite Hret in Hpost.
    destruct Hpost as (_ & reader & out & Hop & _ & Hr & Hout & _ & Hf).
    exists reader, out, (loop_indices first skip (Z.of_nat (length reader))).
    split_and!; [done|done| |by rewrite (Forall2_length _ _ _ Hout)|done].
    by rewrite Hf, lookup_insert_eq.
Qed.

(** C3 (as amended). A skip range lying entirely beyond the document (its
    start exceeds totalPages) is an error, not a no-op: once the keep
    range has passed its two checks, the run raises the [ValueError]
    naming the skip start and totalPages, and reads no page and touches no
    file.  The no-op is the skip range that starts within the document and
    ends at or beyond its last page: the run then reads exactly the keep
    range's indices. *)
Theorem C3_skip_beyond_document env (input_path output_path : Path) doc
  (pages_first_range pages_skip_range : Z * Z) (verbose : bool) w :
  let total_pages := Z.of_nat (length doc) in
  let r := create_exploring_ai_report env input_path output_path
             pages_first_range pages_skip_range verbose w in
  readable env input_path doc ->
  pages_first_range.2 <= total_pages ->
  1 <= pages_first_range.1 ->
  (total_pages < pages_skip_range.1 ->
   r.1 = Raise (ValueError
                  ("Skip range start (" +:+ str_int pages_skip_range.1 +:+
                   ") exceeds total pages (" +:+ str_int total_pages +:+ ")"))
   /\ page_reads r.2 = page_reads w
   /\ files r.2 = files w)
  /\ (pages_skip_range.1 <= total_pages ->
      total_pages <= pages_skip_range.2 ->
      page_reads r.2
      = page_reads w ++ py_range (pages_first_range.1 - 1) pages_first_range.2
      /\ (writable env output_path -> r.1 = Return true)).
Proof.
  intros total_pages r Hread Hend Hstart. split.
  - intros Hskip. apply create_report_rejects with (reader := Return <$> doc);
      [done|].
    rewrite length_fmap. fold total_pages. unfold range_error.
    assert ((pages_first_range.2 >? total_pages) = false) as ->
      by (rewrite Z.gtb_ltb; apply Z.ltb_ge; lia).
    assert ((pages_first_range.1 - 1 <? 0) = false) as ->
      by (apply Z.ltb_ge; lia).
    assert ((pages_skip_range.1 - 1 >=? total_pages) = true) as ->
      by (rewrite Z.geb_leb; apply Z.leb_le; lia).
    done.
  - intros Hin Hout. apply skip_to_the_end with (doc := doc); [done| |done].
    apply ranges_accepted_iff. lia.
Qed.

(** C4. The code does no deduplication, and the claim fails on it: when
    the skip range ends inside the keep range, the pages of the keep range
    from the skip end on are copied a second time.  For every pair of
    ranges that passes the checks and every 0-indexed page [i] of the keep
    range at or after the skip end, the run reads index [i] twice, and the
    document it writes holds source page [i] at two different places. *)
Theorem C4_overlap_copies_twice env (input_path output_path : Path) doc
  (pages_first_range pages_skip_range : Z * Z) (verbose : bool) w (i : Z) :
  let total_pages := Z.of_nat (length doc) in
  let first_start_idx := pages_first_range.1 - 1 in
  let first_end_idx := pages_first_range.2 in
  let skip_end_idx := pages_skip_range.2 in
  let r := create_exploring_ai_report env input_path output_path
             pages_first_range pages_skip_range verbose w in
  readable env input_path doc ->
  writable env output_path ->
  ranges_accepted pages_first_range pages_skip_range total_pages = true ->
  0 <= skip_end_idx ->
  first_start_idx <= i < first_end_idx ->
  skip_end_idx <= i ->
  r.1 = Return true
  /\ (exists l, page_reads r.2 = page_reads w ++ l /\ ~ NoDup l)
  /\ exists out p,
       files r.2 !! path_str output_path = Some (Some out)
       /\ doc !! Z.to_nat i = Some p
       /\ out !! Z.to_nat (i - first_start_idx) = Some p
       /\ out !! Z.to_nat (first_end_idx - first_start_idx
                            + (i - skip_end_idx)) = Some p
       /\ i - first_start_idx
          < first_end_idx - first_start_idx + (i - skip_end_idx).
Proof.
  intros total_pages a b s r Hread Hwr Hacc Hs Hi Hsi.
  destruct (create_report_runs env input_path output_path pages_first_range
              pages_skip_range verbose w doc Hread Hacc Hs)
    as (out & Hout & Hr & Hw).
  destruct (Hw Hwr) as [Hret Hf]. fold r in Hret, Hf, Hr.
  apply ranges_accepted_iff in Hacc as (Hb & Ha & _).
  fold total_pages a b s in Hout, Hr, Hb. unfold loop_indices in Hout, Hr.
  fold a b s total_pages in Hout, Hr.
  destruct (Z.ltb_spec s total_pages) as [Hlt|?]; [|lia].
  unfold py_range in Hout, Hr.
  split_and!; [done| |].
  { eexists. split; [exact Hr|]. rewrite NoDup_app.
    intros (_ & Hdis & _). apply (Hdis i); apply elem_of_seqZ; lia. }
  apply Forall2_app_inv_l in Hout as (o1 & o2 & Ho1 & Ho2 & ->).
  pose proof (Forall2_length _ _ _ Ho1) as Hlen. rewrite length_seqZ in Hlen.
  destruct (Forall2_lookup_l _ _ _ (Z.to_nat (i - a)) i Ho1)
    as (p & Hp1 & Hdoc).
  { apply lookup_seqZ. lia. }
  destruct (Forall2_lookup_l _ _ _ (Z.to_nat (i - s)) i Ho2)
    as (p' & Hp2 & Hdoc').
  { apply lookup_seqZ. lia. }
  assert (p' = p) as -> by congruence.
  exists (o1 ++ o2), p. split_and!.
  - by rewrite Hf, lookup_insert_eq.
  - done.
  - rewrite lookup_app_l by lia. done.
  - rewrite lookup_app_r by lia. rewrite <-Hp2. f_equal. lia.
  - lia.
Qed.

(** C5. The code does not reject a keep range whose start exceeds its end,
    and the claim fails on it: none of the three checks compares a start
    with its end.  When the checks pass, the keep range contributes no
    page, the run reads only the pages after the skip range, and when the
    output can be written it returns [True] and the document holds those
    pages only. *)
Theorem C5_reversed_keep_range env (input_path output_path : Path) doc
  (pages_first_range pages_skip_range : Z * Z) (verbose : bool) w :
  let total_pages := Z.of_nat (length doc) in
  let r := create_exploring_ai_report env input_path output_path
             pages_first_range pages_skip_range verbose w in
  readable env input_path doc ->
  pages_first_range.2 < pages_first_range.1 ->
  ranges_accepted pages_first_range pages_skip_range total_pages = true ->
  0 <= pages_skip_range.2 ->
  page_reads r.2
  = page_reads w ++ (if pages_skip_range.2 <? total_pages
                     then py_range pages_skip_range.2 total_pages
                     else [])
  /\ (writable env output_path ->
      r.1 = Return true
      /\ files r.2 !! path_str output_path
         = Some (Some (drop (Z.to_nat pages_skip_range.2) doc))).
Proof.
  intros total_pages r Hread Hrev Hacc Hskip.
  destruct (create_report_runs env input_path output_path pages_first_range
              pages_skip_range verbose w doc Hread Hacc Hskip)
    as (out & Hout & Hr & Hw).
  fold r total_pages in Hr, Hw, Hout. unfold loop_indices, py_range in Hr, Hout.
  rewrite seqZ_nil in Hr, Hout by lia. split; [done|].
  intros Hwr. destruct (Hw Hwr) as [Hret Hf]. split; [done|].
  rewrite Hf, lookup_insert_eq. do 2 f_equal. simpl in Hout.
  destruct (Z.ltb_spec pages_skip_range.2 total_pages).
  - apply pages_of_range in Hout; [|done]. rewrite Hout.
    apply take_ge. rewrite length_drop. lia.
  - inversion Hout. symmetry. apply drop_ge. lia.
Qed.

(** C6 (as amended). A keep range whose end exceeds totalPages is rejected
    with a [ValueError] naming the end and totalPages, before any page is
    read.  A skip range whose end exceeds totalPages is not: only its
    start is checked, and the run then reads exactly the keep range's
    indices and copies nothing after them. *)
Theorem C6_range_end_beyond_document env (input_path output_path : Path) doc
  (pages_first_range pages_skip_range : Z * Z) (verbose : bool) w :
  let total_pages := Z.of_nat (length doc) in
  let r := create_exploring_ai_report env input_path output_path
             pages_first_range pages_skip_range verbose w in
  readable env input_path doc ->
  (total_pages < pages_first_range.2 ->
   r.1 = Raise (ValueError
                  ("First range end (" +:+ str_int pages_first_range.2 +:+
                   ") exceeds total pages (" +:+ str_int total_pages +:+ ")"))
   /\ page_reads r.2 = page_reads w
   /\ files r.2 = files w)
  /\ (ranges_accepted pages_first_range pages_skip_range total_pages = true ->
      total_pages < pages_skip_range.2 ->
      page_reads r.2
      = page_reads w ++ py_range (pages_first_range.1 - 1) pages_first_range.2
      /\ (writable env output_path -> r.1 = Return true)).
Proof.
  intros total_pages r Hread. split.
  - intros Hend. apply create_report_rejects with (reader := Return <$> doc);
      [done|].
    rewrite length_fmap. fold total_pages. unfold range_error.
    assert ((pages_first_range.2 >? total_pages) = true) as ->
      by (rewrite Z.gtb_ltb; apply Z.ltb_lt; lia).
    done.
  - intros Hacc Hskip.
    apply skip_to_the_end with (doc := doc); [done|done|lia].
Qed.

(** C7. Against a 10-page document the keep range (1,15) is rejected with
    the [ValueError] whose message names the end 15 and the 10 pages, and
    no page is read and no file touched. *)
Theorem C7_keep_end_15_of_10 env (input_path output_path : Path)
  (reader : list (outcome Page)) (pages_skip_range : Z * Z) (verbose : bool)
  w :
  let r := create_exploring_ai_report env input_path output_path
             (1, 15) pages_skip_range verbose w in
  opens_as env input_path reader ->
  length reader = 10%nat ->
  r.1 = Raise (ValueError "First range end (15) exceeds total pages (10)")
  /\ page_reads r.2 = page_reads w
  /\ files r.2 = files w.
Proof.
  intros r Hop Hlen. apply create_report_rejects with (reader := reader);
    [done|].
  by rewrite Hlen.
Qed.


(** C9. When both ranges have 1 <= start <= end and the three checks pass,
    every index of the selection, and so every index the run passes to
    [reader.pages], lies in [0, totalPages): it is its own normal form, so
    neither the negative-index nor the out-of-range branch of the access
    is taken. *)
Theorem C9_indices_in_bounds env (input_path output_path : Path)
  (reader : list (outcome Page))
  (pages_first_range pages_skip_range : Z * Z) (verbose : bool) w :
  let total_pages := Z.of_nat (length reader) in
  let r := create_exploring_ai_report env input_path output_path
             pages_first_range pages_skip_range verbose w in
  opens_as env input_path reader ->
  1 <= pages_first_range.1 <= pages_first_range.2 ->
  1 <= pages_skip_range.1 <= pages_skip_range.2 ->
  ranges_accepted pages_first_range pages_skip_range total_pages = true ->
  Forall (fun i => 0 <= i < total_pages
                   /\ normalize_index total_pages i = Some i)
    (loop_indices pages_first_range pages_skip_range total_pages)
  /\ exists l,
       page_reads r.2 = page_reads w ++ l
       /\ l `prefix_of`
            loop_indices pages_first_range pages_skip_range total_pages
       /\ Forall (fun i => 0 <= i < total_pages
                           /\ normalize_index total_pages i = Some i) l.
Proof.
  intros total_pages r Hop Hfirst Hskip Hacc.
  assert (Forall (fun i => 0 <= i < total_pages
                           /\ normalize_index total_pages i = Some i)
            (loop_indices pages_first_range pages_skip_range total_pages))
    as Hall.
  { eapply Forall_impl; [apply loop_indices_in_range; [done|lia]|].
    intros i Hi. split; [done|]. by apply normalize_index_in_range. }
  split; [done|].
  destruct (create_report_reads env input_path output_path pages_first_range
              pages_skip_range verbose w) as (l & Hr & Hl).
  exists l. split; [done|].
  destruct Hl as [->|(reader' & Hop' & _ & Hpre)].
  { split; [apply prefix_nil|constructor]. }
  rewrite (opens_as_inj _ _ _ _ Hop Hop') in Hpre.
  split; [done|]. by eapply prefix_Forall.
Qed.

(** C10. Whenever [create_exploring_ai_report] returns, it returns [True];
    so [main] never takes the [else 1] of [0 if success else 1]: when it
    exits with 1, the call has raised. *)
Theorem C10_returns_true_only :
  (forall env (input_path output_path : Path)
     (pages_first_range pages_skip_range : Z * Z) (verbose : bool) w b,
     (create_exploring_ai_report env input_path output_path
        pages_first_range pages_skip_range verbose w).1 = Return b ->
     b = true)
  /\ (forall env (args : Args) w,
        (main env (Namespace args) w).1 = Ends (Return 1) ->
        exists e,
          (create_exploring_ai_report env (main_input args)
             (main_output args) (first_range args) (skip_range args)
             (negb (quiet args)) w).1 = Raise e).
Proof.
  assert (forall env (input_path output_path : Path) (first skip : Z * Z)
            (verbose : bool) w b,
            (create_exploring_ai_report env input_path output_path
               first skip verbose w).1 = Return b -> b = true) as Htrue.
  { intros env input_path output_path first skip verbose w b Hret.
    destruct (create_report_spec env input_path output_path first skip
                verbose w) as [Hpost _].
    rewrite Hret in Hpost. by destruct Hpost as [-> _]. }
  split; [exact Htrue|].
  intros env args w. rewrite main_exit_code.
  destruct (create_exploring_ai_report _ _ _ _ _ _ w).1 as [b|e] eqn:Hret;
    [|by eauto].
  rewrite (Htrue _ _ _ _ _ _ _ _ Hret). intros [=].
Qed.

End Claims.

(** ** The claims at concrete documents *)

Example run_20_pages :
  let r := create_exploring_ai_report (obliging_env (numbered_doc 20))
             sample_input sample_output (1, 10) (11, 13) true blank_world in
  r.1 = Return true
  /\ files r.2 !! "out/personalised.pdf"
     = Some (Some [1; 2; 3; 4; 5; 6; 7; 8; 9; 10; 14; 15; 16; 17; 18; 19; 20])
  /\ stdout r.2 !! 1%nat = Some "Total pages in input: 20"
  /\ last (stdout r.2) = Some "   - Total pages in output: 17".
Proof. vm_compute. repeat split. Qed.

Example main_defaults_exit_code :
  (main (obliging_env (numbered_doc 20))
     (Namespace {| input_file := None; output_file := None;
                   first_range := (1, 10); skip_range := (11, 13);
                   quiet := true |}) blank_world).1 = Ends (Return 0).
Proof. reflexivity. Qed.

Example main_rejected_exit_code :
  let r := main (obliging_env (numbered_doc 10))
             (Namespace {| input_file := None; output_file := None;
                           first_range := (1, 15); skip_range := (11, 13);
                           quiet := true |}) blank_world in
  r.1 = Ends (Return 1)
  /\ stderr r.2
     = ["Error: First range end (15) exceeds total pages (10)"].
Proof. vm_compute. repeat split. Qed.

Example all_reports_on_20_pages :
  let r := generate_all_reports_script (obliging_env (numbered_doc 20))
             blank_world in
  r.1 = Return tt
  /\ files r.2 !! "STT25_Personalised_Integrating_AI.pdf"
     = Some (Some [1; 2; 3; 4; 5; 6; 7; 8; 9; 12; 14; 15; 16; 17; 18; 19; 20])
  /\ files r.2 !! "STT25_Personalised_Leading_AI.pdf" = None
  /\ size (files r.2) = 3%nat.
Proof. vm_compute. repeat split. Qed.

Lemma C1_default_selection_witness :
  page_reads
    (create_exploring_ai_report (obliging_env (numbered_doc 20)) sample_input
       sample_output (1, 10) (11, 13) true blank_world).2
  = [0; 1; 2; 3; 4; 5; 6; 7; 8; 9; 13; 14; 15; 16; 17; 18; 19].
Proof.
  refine (proj1 (C1_default_selection (obliging_env (numbered_doc 20))
                   sample_input sample_output (numbered_doc 20) true
                   blank_world _ _)).
  - repeat split.
  - vm_compute. discriminate.
Defined.

Lemma C2_output_document_witness :
  let r := create_exploring_ai_report (obliging_env (numbered_doc 20))
             sample_input sample_output (1, 10) (11, 13) true blank_world in
  r.1 = Return true
  /\ exists out,
      files r.2 !! path_str sample_output = Some (Some out)
      /\ length out = 17%nat
      /\ (forall k, (k < 10)%nat -> out !! k = numbered_doc 20 !! k)
      /\ (forall k, (10 <= k < 17)%nat ->
                    out !! k = numbered_doc 20 !! (k + 3)%nat).
Proof.
  refine (proj1 C2_output_document (obliging_env (numbered_doc 20))
            sample_input sample_output (numbered_doc 20) true blank_world
            _ _ _).
  - repeat split.
  - repeat split.
  - reflexivity.
Defined.

(** C3 as stated fails: with 10 pages and skip range (11,13) the run does
    not yield pages 0..9; it raises and reads nothing. *)
Lemma C3_counterexample :
  let r := create_exploring_ai_report (obliging_env (numbered_doc 10))
             sample_input sample_output (1, 10) (11, 13) true blank_world in
  r.1 = Raise (ValueError "Skip range start (11) exceeds total pages (10)")
  /\ page_reads r.2 = []
  /\ ~ (r.1 = Return true
        /\ page_reads r.2 = [0; 1; 2; 3; 4; 5; 6; 7; 8; 9]).
Proof.
  vm_compute. split_and!; [done|done|]. intros [H _]. discriminate H.
Qed.

Lemma C3_skip_beyond_document_witness :
  let r := create_exploring_ai_report (obliging_env (numbered_doc 10))
             sample_input sample_output (1, 10) (11, 13) true blank_world in
  r.1 = Raise (ValueError "Skip range start (11) exceeds total pages (10)")
  /\ page_reads r.2 = []
  /\ files r.2 = ∅.
Proof.
  refine (proj1 (C3_skip_beyond_document (obliging_env (numbered_doc 10))
                   sample_input sample_output (numbered_doc 10) (1, 10)
                   (11, 13) true blank_world _ _ _) _).
  - repeat split.
  - vm_compute. discriminate.
  - vm_compute. discriminate.
  - reflexivity.
Defined.

(** The run C4 fails on: keep range (1,10) and skip range (3,5) pass the
    checks on 20 pages; pages 6-10 of the source (indices 5..9) are read
    and copied twice, and pages 3-5 stand in the output although the run
    reports them as removed. *)
Example keep_1_10_skip_3_5_on_20_pages :
  let r := create_exploring_ai_report (obliging_env (numbered_doc 20))
             sample_input sample_output (1, 10) (3, 5) true blank_world in
  r.1 = Return true
  /\ page_reads r.2
     = [0; 1; 2; 3; 4; 5; 6; 7; 8; 9;
        5; 6; 7; 8; 9; 10; 11; 12; 13; 14; 15; 16; 17; 18; 19]
  /\ files r.2 !! path_str sample_output
     = Some (Some [1; 2; 3; 4; 5; 6; 7; 8; 9; 10;
                   6; 7; 8; 9; 10; 11; 12; 13; 14; 15; 16; 17; 18; 19; 20])
  /\ stdout r.2 !! 7%nat
     = Some "   - Pages removed: 3-5 (Other Personalities)"
  /\ last (stdout r.2) = Some "   - Total pages in output: 25"
  /\ ~ NoDup (page_reads r.2).
Proof.
  split_and!; [reflexivity..|].
  apply (proj1 (bool_decide_eq_false (NoDup _))). reflexivity.
Qed.

Lemma C4_overlap_copies_twice_witness :
  let r := create_exploring_ai_report (obliging_env (numbered_doc 20))
             sample_input sample_output (1, 10) (3, 5) true blank_world in
  r.1 = Return true
  /\ (exists l, page_reads r.2 = l /\ ~ NoDup l)
  /\ exists out p,
       files r.2 !! path_str sample_output = Some (Some out)
       /\ numbered_doc 20 !! 5%nat = Some p
       /\ out !! 5%nat = Some p
       /\ out !! 10%nat = Some p
       /\ 5 < 10.
Proof.
  refine (C4_overlap_copies_twice (obliging_env (numbered_doc 20))
            sample_input sample_output (numbered_doc 20) (1, 10) (3, 5)
            true blank_world 5 _ _ _ _ _ _).
  - repeat split.
  - repeat split.
  - reflexivity.
  - vm_compute. discriminate.
  - vm_compute. split; [discriminate|reflexivity].
  - vm_compute. discriminate.
Defined.

(** The run C5 fails on: the keep range (5,2) is not rejected; the run
    returns [True], having copied pages 14-20 only, and reports pages 5-2
    as kept. *)
Example keep_5_2_on_20_pages :
  let r := create_exploring_ai_report (obliging_env (numbered_doc 20))
             sample_input sample_output (5, 2) (11, 13) true blank_world in
  r.1 = Return true
  /\ page_reads r.2 = [13; 14; 15; 16; 17; 18; 19]
  /\ files r.2 !! path_str sample_output
     = Some (Some [14; 15; 16; 17; 18; 19; 20])
  /\ stdout r.2 !! 6%nat
     = Some "   - Pages kept: 5-2 (Intro + Exploring Summary)"
  /\ (forall e, r.1 <> Raise e).
Proof. split_and!; [reflexivity..|]. intros e. vm_compute. discriminate. Qed.

Lemma C5_reversed_keep_range_witness :
  let r := create_exploring_ai_report (obliging_env (numbered_doc 20))
             sample_input sample_output (5, 2) (11, 13) true blank_world in
  page_reads r.2 = [13; 14; 15; 16; 17; 18; 19]
  /\ (writable (obliging_env (numbered_doc 20)) sample_output ->
      r.1 = Return true
      /\ files r.2 !! path_str sample_output
         = Some (Some [14; 15; 16; 17; 18; 19; 20])).
Proof.
  refine (C5_reversed_keep_range (obliging_env (numbered_doc 20))
            sample_input sample_output (numbered_doc 20) (5, 2) (11, 13)
            true blank_world _ _ _ _).
  - repeat split.
  - reflexivity.
  - reflexivity.
  - vm_compute. discriminate.
Defined.

(** C6 as stated fails: the skip range (5,15) against a 12-page document
    is not rejected; the run returns [True], having copied pages 1-10. *)
Lemma C6_counterexample :
  let r := create_exploring_ai_report (obliging_env (numbered_doc 12))
             sample_input sample_output (1, 10) (5, 15) true blank_world in
  r.1 = Return true
  /\ page_reads r.2 = [0; 1; 2; 3; 4; 5; 6; 7; 8; 9]
  /\ files r.2 !! path_str sample_output
     = Some (Some [1; 2; 3; 4; 5; 6; 7; 8; 9; 10])
  /\ (forall e, r.1 <> Raise e).
Proof. split_and!; [reflexivity..|]. intros e. vm_compute. discriminate. Qed.

Lemma C6_range_end_beyond_document_witness :
  (let r := create_exploring_ai_report (obliging_env (numbered_doc 12))
              sample_input sample_output (1, 15) (5, 15) true blank_world in
   r.1 = Raise (ValueError "First range end (15) exceeds total pages (12)")
   /\ page_reads r.2 = []
   /\ files r.2 = ∅)
  /\ (let r := create_exploring_ai_report (obliging_env (numbered_doc 12))
                 sample_input sample_output (1, 10) (5, 15) true
                 blank_world in
      page_reads r.2 = [0; 1; 2; 3; 4; 5; 6; 7; 8; 9]
      /\ (writable (obliging_env (numbered_doc 12)) sample_output ->
          r.1 = Return true)).
Proof.
  split.
  - refine (proj1 (C6_range_end_beyond_document
                     (obliging_env (numbered_doc 12)) sample_input
                     sample_output (numbered_doc 12) (1, 15) (5, 15) true
                     blank_world _) _).
    + repeat split.
    + reflexivity.
  - refine (proj2 (C6_range_end_beyond_document
                     (obliging_env (numbered_doc 12)) sample_input
                     sample_output (numbered_doc 12) (1, 10) (5, 15) true
                     blank_world _) _ _).
    + repeat split.
    + reflexivity.
    + reflexivity.
Defined.

Lemma C7_keep_end_15_of_10_witness :
  let r := create_exploring_ai_report (obliging_env (numbered_doc 10))
             sample_input sample_output (1, 15) (11, 13) true blank_world in
  r.1 = Raise (ValueError "First range end (15) exceeds total pages (10)")
  /\ page_reads r.2 = []
  /\ files r.2 = ∅.
Proof.
  refine (C7_keep_end_15_of_10 (obliging_env (numbered_doc 10)) sample_input
            sample_output (Return <$> numbered_doc 10) (11, 13) true
            blank_world _ _).
  - repeat split.
  - reflexivity.
Defined.



Lemma C9_indices_in_bounds_witness :
  let r := create_exploring_ai_report (obliging_env (numbered_doc 20))
             sample_input sample_output (1, 10) (11, 13) true blank_world in
  Forall (fun i => 0 <= i < 20 /\ normalize_index 20 i = Some i)
    (loop_indices (1, 10) (11, 13) 20)
  /\ exists l,
       page_reads r.2 = l
       /\ l `prefix_of` loop_indices (1, 10) (11, 13) 20
       /\ Forall (fun i => 0 <= i < 20 /\ normalize_index 20 i = Some i) l.
Proof.
  refine (C9_indices_in_bounds (obliging_env (numbered_doc 20)) sample_input
            sample_output (Return <$> numbered_doc 20) (1, 10) (11, 13) true
            blank_world _ _ _ _).
  - repeat split.
  - simpl. lia.
  - simpl. lia.
  - reflexivity.
Defined.

Lemma C10_returns_true_only_witness :
  (create_exploring_ai_report (obliging_env (numbered_doc 20)) sample_input
     sample_output (1, 10) (11, 13) true blank_world).1 = Return true
  /\ true = true.
Proof.
  split; [reflexivity|].
  refine (proj1 C10_returns_true_only (obliging_env (numbered_doc 20))
            sample_input sample_output (1, 10) (11, 13) true blank_world
            true _).
  reflexivity.
Defined.

(** ** Further properties of the scripts *)

Section Further.
Context {Page : Type}.
Implicit Types (env : Env Page) (w : World Page) (doc : list Page).

(** *** The input tests *)

(** Which characters [lower()] takes to a given one. *)
Lemma ascii_lower_dot (c : ascii) : ascii_lower c = "."%char -> c = "."%char.
Proof.
  destruct c as [[] [] [] [] [] [] [] []]; vm_compute; intros H;
    first [discriminate H|reflexivity].
Qed.

Lemma ascii_lower_p (c : ascii) :
  ascii_lower c = "p"%char -> c = "p"%char \/ c = "P"%char.
Proof.
  destruct c as [[] [] [] [] [] [] [] []]; vm_compute; intros H;
    first [discriminate H|by left|by right].
Qed.

Lemma ascii_lower_d (c : ascii) :
  ascii_lower c = "d"%char -> c = "d"%char \/ c = "D"%char.
Proof.
  destruct c as [[] [] [] [] [] [] [] []]; vm_compute; intros H;
    first [discriminate H|by left|by right].
Qed.

Lemma ascii_lower_f (c : ascii) :
  ascii_lower c = "f"%char -> c = "f"%char \/ c = "F"%char.
Proof.
  destruct c as [[] [] [] [] [] [] [] []]; vm_compute; intros H;
    first [discriminate H|by left|by right].
Qed.

(** The strings [lower()] takes to [.pdf] are its eight spellings, and no
    other string. *)
Lemma str_lower_pdf (s : string) :
  str_lower s = ".pdf" <-> s ∈ pdf_suffixes.
Proof.
  unfold pdf_suffixes. split.
  - destruct s as [|c1 [|c2 [|c3 [|c4 [|c5 s]]]]]; simpl; try discriminate.
    intros [= H1 H2 H3 H4].
    apply ascii_lower_dot in H1 as ->.
    apply ascii_lower_p in H2. apply ascii_lower_d in H3.
    apply ascii_lower_f in H4.
    rewrite !elem_of_cons.
    destruct H2 as [-> | ->], H3 as [-> | ->], H4 as [-> | ->]; tauto.
  - rewrite !elem_of_cons, elem_of_nil.
    intros [->|[->|[->|[->|[->|[->|[->|[->|[]]]]]]]]]; reflexivity.
Qed.

(** X1. [validate_input_file] returns exactly for an existing regular file
    whose suffix is one of the eight spellings of [.pdf] in upper and
    lower case, and for no other suffix; a missing path is reported as
    [FileNotFoundError] whatever its suffix, a directory as a [ValueError]
    before the suffix is looked at; and the world is left as it was. *)
Theorem validate_input_file_verdict env (input_path : Path) w :
  (validate_input_file env input_path w).2 = w
  /\ ((validate_input_file env input_path w).1 = Return tt
      <-> path_exists env (path_str input_path) = true
          /\ path_is_file env (path_str input_path) = true
          /\ suffix input_path ∈ pdf_suffixes)
  /\ (path_exists env (path_str input_path) = false ->
      (validate_input_file env input_path w).1
      = Raise (FileNotFoundError
                 ("Input file not found: " +:+ path_str input_path)))
  /\ (path_exists env (path_str input_path) = true ->
      path_is_file env (path_str input_path) = false ->
      (validate_input_file env input_path w).1
      = Raise (ValueError
                 ("Input path is not a file: " +:+ path_str input_path)))
  /\ (path_exists env (path_str input_path) = true ->
      path_is_file env (path_str input_path) = true ->
      suffix input_path ∉ pdf_suffixes ->
      (validate_input_file env input_path w).1
      = Raise (ValueError
                 ("Input file must be a PDF: " +:+ path_str input_path))).
Proof.
  rewrite <-str_lower_pdf.
  unfold validate_input_file, bind, raise, ret.
  destruct (path_exists env _) eqn:He; simpl.
  2:{ split_and!; try done. split; [done|]. intros (? & _); done. }
  destruct (path_is_file env _) eqn:Hf; simpl.
  2:{ split_and!; try done. split; [done|]. intros (_ & ? & _); done. }
  destruct (String.eqb (str_lower (suffix input_path)) ".pdf") eqn:Hs; simpl.
  - apply String.eqb_eq in Hs. split_and!; try done.
  - apply String.eqb_neq in Hs. split_and!; try done.
    split; [done|]. intros (_ & _ & ?); done.
Qed.

(** *** Exact runs of the primitives *)

Lemma pages_getitem_exact (reader : list (outcome Page)) (i : Z) w :
  pages_getitem reader i w = (page_outcome reader i, record_reads w [i]).
Proof.
  unfold pages_getitem, page_outcome, record_reads.
  destruct (normalize_index _ i) as [j|]; [|done].
  by destruct (reader !! Z.to_nat j).
Qed.

Lemma page_at_outcome (reader : list (outcome Page)) (i : Z) (p : Page) :
  page_at reader i p <-> page_outcome reader i = Return p.
Proof.
  unfold page_at, page_outcome. split.
  - intros (j & -> & ->). done.
  - destruct (normalize_index _ i) as [j|]; [|done].
    destruct (reader !! Z.to_nat j) as [o|] eqn:Hj; [|done].
    intros ->. by exists j.
Qed.

Lemma record_reads_nil w : record_reads w [] = w.
Proof. destruct w. unfold record_reads. simpl. by rewrite app_nil_r. Qed.

Lemma record_reads_app w (l k : list Z) :
  record_reads (record_reads w l) k = record_reads w (l ++ k).
Proof. unfold record_reads. simpl. by rewrite app_assoc. Qed.

(** A copying loop over indices that all read well. *)
Lemma copy_loop_completes (reader : list (outcome Page)) (indices : list Z)
  (ps : list Page) (st : list Page * Z) w :
  Forall2 (page_at reader) indices ps ->
  for_each indices (copy_page reader) st w
  = (Return (st.1 ++ ps, st.2 + Z.of_nat (length indices)),
     record_reads w indices).
Proof.
  intros Hps. revert st w.
  induction Hps as [|i p indices ps Hp _ IH]; intros st w.
  - simpl. unfold ret. rewrite record_reads_nil, app_nil_r, Z.add_0_r.
    by destruct st.
  - simpl. unfold bind, copy_page at 1, bind.
    rewrite pages_getitem_exact, (proj1 (page_at_outcome _ _ _) Hp).
    unfold ret. rewrite IH, record_reads_app. simpl.
    rewrite <-app_assoc. simpl. do 3 f_equal. lia.
Qed.

(** A copying loop stops at the first index that does not read. *)
Lemma copy_loop_stops (reader : list (outcome Page)) (seen rest : list Z)
  (i : Z) (e : exn) (ps : list Page) (st : list Page * Z) w :
  Forall2 (page_at reader) seen ps ->
  page_outcome reader i = Raise e ->
  for_each (seen ++ i :: rest) (copy_page reader) st w
  = (Raise e, record_reads w (seen ++ [i])).
Proof.
  intros Hps He. revert st w.
  induction Hps as [|j p seen ps Hp _ IH]; intros st w.
  - simpl. unfold bind, copy_page at 1, bind.
    by rewrite pages_getitem_exact, He.
  - simpl. unfold bind, copy_page at 1, bind.
    rewrite pages_getitem_exact, (proj1 (page_at_outcome _ _ _) Hp).
    unfold ret. by rewrite IH, record_reads_app.
Qed.

(** *** What a computation leaves alone *)

Section Preserves.
Context (R : World Page -> World Page -> Prop) `{!PreOrder R}.

Lemma preserves_ret {A} (a : A) : preserves R (ret a).
Proof. intros w. simpl. reflexivity. Qed.

Lemma preserves_raise {A} (e : exn) : preserves R (raise (A:=A) e).
Proof. intros w. simpl. reflexivity. Qed.

Lemma preserves_lift_outcome {A} (o : outcome A) :
  preserves R (lift_outcome o).
Proof. intros w. simpl. reflexivity. Qed.

Lemma preserves_lift_status (o : option exn) : preserves R (lift_status o).
Proof. destruct o; [apply preserves_raise|apply preserves_ret]. Qed.

Lemma preserves_bind {A B} (m : M Page A) (k : A -> M Page B) :
  preserves R m -> (forall a, preserves R (k a)) -> preserves R (bind m k).
Proof.
  intros Hm Hk w. unfold bind. specialize (Hm w).
  destruct (m w) as [[a|e] w']; simpl in *; [|done].
  etrans; [exact Hm|apply Hk].
Qed.

Lemma preserves_try_except {A} (body : M Page A) (handler : exn -> M Page A) :
  preserves R body -> (forall e, preserves R (handler e)) ->
  preserves R (try_except body handler).
Proof.
  intros Hb Hh w. unfold try_except. specialize (Hb w).
  destruct (body w) as [[a|e] w']; simpl in *; [done|].
  etrans; [exact Hb|apply Hh].
Qed.

Lemma preserves_for_each {A S} (xs : list A) (body : A -> S -> M Page S)
  (s : S) :
  (forall x s', preserves R (body x s')) -> preserves R (for_each xs body s).
Proof.
  intros Hbody. revert s. induction xs as [|x xs IH]; intros s; simpl.
  - apply preserves_ret.
  - apply preserves_bind; [apply Hbody|apply IH].
Qed.

Lemma preserves_when_false (m : M Page unit) : preserves R (when false m).
Proof. apply preserves_ret. Qed.

Lemma preserves_validate_input_file env (input_path : Path) :
  preserves R (validate_input_file env input_path).
Proof.
  unfold validate_input_file.
  repeat (apply preserves_bind; [|intros _]);
    match goal with
    | |- preserves _ (if ?c then _ else _) => destruct c
    end; first [apply preserves_raise|apply preserves_ret].
Qed.

End Preserves.

#[local] Instance same_output_preorder : PreOrder (same_output (Page:=Page)).
Proof.
  split.
  - by intros w.
  - intros w1 w2 w3 [H1 H2] [H3 H4]. split; congruence.
Qed.

#[local] Instance same_files_except_preorder (path : string) :
  PreOrder (same_files_except (Page:=Page) path).
Proof.
  split.
  - by intros w q Hq.
  - intros w1 w2 w3 H1 H2 q Hq. by rewrite H2, H1.
Qed.

Lemma pages_getitem_silent (reader : list (outcome Page)) (i : Z) :
  preserves same_output (pages_getitem reader i).
Proof. intros w. by rewrite pages_getitem_exact. Qed.

Lemma open_and_write_silent env (path : string) (writer : list Page) :
  preserves same_output (open_and_write env path writer).
Proof.
  intros w. unfold open_and_write, bind, lift_status.
  destruct (open_wb env path); [done|]. simpl.
  by destruct (pdf_write env path writer).
Qed.

Lemma pages_getitem_same_files (path : string) (reader : list (outcome Page))
  (i : Z) :
  preserves (same_files_except path) (pages_getitem reader i).
Proof. intros w q Hq. by rewrite pages_getitem_exact. Qed.

Lemma only_prints_same_files (path : string) (m : M Page unit) :
  only_prints m -> preserves (same_files_except path) m.
Proof. intros Hm w q Hq. destruct (Hm w) as (_ & _ & Hf). by rewrite Hf. Qed.

Lemma open_and_write_same_files env (path : string) (writer : list Page) :
  preserves (same_files_except path) (open_and_write env path writer).
Proof.
  intros w q Hq. unfold open_and_write, bind, lift_status.
  destruct (open_wb env path); [done|]. simpl.
  destruct (pdf_write env path writer); simpl.
  - by rewrite lookup_insert_ne.
  - by rewrite !lookup_insert_ne.
Qed.

Create HintDb printing.
#[local] Hint Resolve only_prints_print only_prints_eprint only_prints_when
  only_prints_bind : printing.

(** Walk through a computation, one statement at a time. *)
Ltac preserves_walk prim :=
  repeat first
    [ apply preserves_ret; solve [typeclasses eauto]
    | apply preserves_raise; solve [typeclasses eauto]
    | apply preserves_lift_outcome; solve [typeclasses eauto]
    | apply preserves_lift_status; solve [typeclasses eauto]
    | apply preserves_validate_input_file; solve [typeclasses eauto]
    | apply preserves_when_false; solve [typeclasses eauto]
    | solve [prim]
    | apply preserves_bind; [typeclasses eauto| |intros ?]
    | apply preserves_try_except; [typeclasses eauto| |intros ?]
    | apply preserves_for_each; [typeclasses eauto|intros ? ?]
    | progress unfold copy_page, add_page
    | match goal with
      | |- preserves _ (if ?c then _ else _) => destruct c
      | |- preserves _ (match ?e with _ => _ end) => destruct e
      end ].

(** *** Quiet runs leave standard output alone; no run touches another file *)

Lemma create_report_silent env (input_path output_path : Path)
  (pages_first_range pages_skip_range : Z * Z) :
  preserves same_output
    (create_exploring_ai_report env input_path output_path
       pages_first_range pages_skip_range false).
Proof.
  unfold create_exploring_ai_report. cbv zeta.
  preserves_walk ltac:(first [apply pages_getitem_silent
                             |apply open_and_write_silent]).
Qed.

Lemma create_report_same_files env (input_path output_path : Path)
  (pages_first_range pages_skip_range : Z * Z) (verbose : bool) :
  preserves (same_files_except (path_str output_path))
    (create_exploring_ai_report env input_path output_path
       pages_first_range pages_skip_range verbose).
Proof.
  unfold create_exploring_ai_report. cbv zeta.
  preserves_walk ltac:(first [apply pages_getitem_same_files
                             |apply open_and_write_same_files
                             |apply only_prints_same_files;
                              auto 10 with printing]).
Qed.

(** X8. With [verbose=False], [create_exploring_ai_report] writes nothing to
    standard output, however the run ends; and once the command line has
    parsed with [--quiet], neither does [main], whose own reports go to
    standard error. *)
Theorem quiet_leaves_stdout_alone env (input_path output_path : Path)
  (pages_first_range pages_skip_range : Z * Z)
  (input output : option Path) w :
  stdout (create_exploring_ai_report env input_path output_path
            pages_first_range pages_skip_range false w).2 = stdout w
  /\ stdout (main env
               (Namespace {| input_file := input; output_file := output;
                             first_range := pages_first_range;
                             skip_range := pages_skip_range;
                             quiet := true |}) w).2 = stdout w.
Proof.
  split; [apply create_report_silent|].
  unfold main, ends, try_except, bind. cbn [fst snd negb quiet first_range
    skip_range input_file output_file].
  match goal with
  | |- context [create_exploring_ai_report env ?i ?o ?f ?s false w] =>
      destruct (create_report_silent env i o f s w) as [Hout _];
      destruct (create_exploring_ai_report env i o f s false w)
        as [[b|e] w']
  end; simpl in *; [done|].
  by destruct e.
Qed.

(** X10. Whatever happens, [create_exploring_ai_report] leaves every file other
    than its output path as it was, and so does [main], which touches no
    file at all when [parse_args] ends the run. *)
Theorem report_touches_only_its_output env (input_path output_path : Path)
  (pages_first_range pages_skip_range : Z * Z) (verbose : bool)
  (args : Args) w (q : string) :
  (q <> path_str output_path ->
   files (create_exploring_ai_report env input_path output_path
            pages_first_range pages_skip_range verbose w).2 !! q
   = files w !! q)
  /\ (q <> path_str (main_output args) ->
      files (main env (Namespace args) w).2 !! q = files w !! q)
  /\ (forall out err code,
        files (main env (Exits out err code) w).2 = files w).
Proof.
  split_and!; [apply create_report_same_files| |done].
  intros Hq. unfold main, ends. cbv zeta. cbn [snd].
  match goal with
  | |- files (?m w).2 !! q = _ =>
      cut (preserves (same_files_except (path_str (main_output args))) m);
        [intros H; exact (H w q Hq)|]
  end.
  apply preserves_try_except; [typeclasses eauto| |].
  - apply preserves_bind; [typeclasses eauto| |].
    + apply create_report_same_files.
    + intros b. apply preserves_ret. typeclasses eauto.
  - intros e.
    destruct e;
      (apply preserves_bind;
       [typeclasses eauto
       |apply only_prints_same_files; auto with printing
       |intros _; apply preserves_ret; typeclasses eauto]).
Qed.

(** *** Verbosity changes only what is printed *)

Lemma pe_ret {A} (a : A) : print_equivalent (Page:=Page) (ret a) (ret a).
Proof. by intros w1 w2 H. Qed.

Lemma pe_raise {A} (e : exn) :
  print_equivalent (Page:=Page) (raise (A:=A) e) (raise e).
Proof. by intros w1 w2 H. Qed.

Lemma pe_lift_outcome {A} (o : outcome A) :
  print_equivalent (Page:=Page) (lift_outcome o) (lift_outcome o).
Proof. by intros w1 w2 H. Qed.

Lemma pe_lift_status (o : option exn) :
  print_equivalent (Page:=Page) (lift_status o) (lift_status o).
Proof. destruct o; [apply pe_raise|apply pe_ret]. Qed.

Lemma pe_bind {A B} (m1 m2 : M Page A) (k1 k2 : A -> M Page B) :
  print_equivalent m1 m2 ->
  (forall a, print_equivalent (k1 a) (k2 a)) ->
  print_equivalent (bind m1 k1) (bind m2 k2).
Proof.
  intros Hm Hk w1 w2 Hw. unfold bind.
  destruct (Hm w1 w2 Hw) as [Ho Hw'].
  destruct (m1 w1) as [[a|e] w1'], (m2 w2) as [[a'|e'] w2'];
    simpl in *; try discriminate.
  - injection Ho as <-. by apply Hk.
  - by injection Ho as <-.
Qed.

Lemma pe_try_except {A} (b1 b2 : M Page A) (h1 h2 : exn -> M Page A) :
  print_equivalent b1 b2 ->
  (forall e, print_equivalent (h1 e) (h2 e)) ->
  print_equivalent (try_except b1 h1) (try_except b2 h2).
Proof.
  intros Hb Hh w1 w2 Hw. unfold try_except.
  destruct (Hb w1 w2 Hw) as [Ho Hw'].
  destruct (b1 w1) as [[a|e] w1'], (b2 w2) as [[a'|e'] w2'];
    simpl in *; try discriminate.
  - by injection Ho as <-.
  - injection Ho as <-. by apply Hh.
Qed.

Lemma pe_only_prints (m1 m2 : M Page unit) :
  only_prints m1 -> only_prints m2 -> print_equivalent m1 m2.
Proof.
  intros H1 H2 w1 w2 [Hr Hf].
  destruct (H1 w1) as (-> & Hr1 & Hf1), (H2 w2) as (-> & Hr2 & Hf2).
  split; [done|]. split; congruence.
Qed.

Lemma only_prints_ret : only_prints (Page:=Page) (ret tt).
Proof. by intros w. Qed.

Lemma pe_pages_getitem (reader : list (outcome Page)) (i : Z) :
  print_equivalent (pages_getitem reader i) (pages_getitem reader i).
Proof.
  intros w1 w2 [Hr Hf]. rewrite !pages_getitem_exact. simpl.
  split; [done|]. split; simpl; congruence.
Qed.

Lemma pe_for_each {A S} (xs : list A) (body : A -> S -> M Page S) (s : S) :
  (forall x s', print_equivalent (body x s') (body x s')) ->
  print_equivalent (for_each xs body s) (for_each xs body s).
Proof.
  intros Hbody. revert s. induction xs as [|x xs IH]; intros s; simpl.
  - apply pe_ret.
  - apply pe_bind; [apply Hbody|apply IH].
Qed.

Lemma pe_open_and_write env (path : string) (writer : list Page) :
  print_equivalent (open_and_write env path writer)
    (open_and_write env path writer).
Proof.
  intros w1 w2 [Hr Hf]. unfold open_and_write, bind, lift_status.
  destruct (open_wb env path); [done|]. simpl.
  destruct (pdf_write env path writer); simpl;
    (split; [done|]); split; simpl; congruence.
Qed.

Lemma pe_validate_input_file env (input_path : Path) :
  print_equivalent (validate_input_file env input_path)
    (validate_input_file env input_path).
Proof.
  unfold validate_input_file.
  repeat (apply pe_bind; [|intros _]);
    match goal with
    | |- print_equivalent (if ?c then _ else _) _ => destruct c
    end; first [apply pe_raise|apply pe_ret].
Qed.

#[local] Hint Resolve only_prints_ret : printing.

Ltac pe_walk :=
  repeat first
    [ apply pe_ret | apply pe_raise | apply pe_lift_outcome
    | apply pe_lift_status | apply pe_validate_input_file
    | apply pe_pages_getitem | apply pe_open_and_write
    | apply pe_only_prints; solve [auto 10 with printing]
    | apply pe_bind; [|intros ?]
    | apply pe_try_except; [|intros ?]
    | apply pe_for_each; intros ? ?
    | progress unfold copy_page
    | match goal with
      | |- print_equivalent (if ?c then _ else _) _ => destruct c
      | |- print_equivalent (match ?e with _ => _ end) _ => destruct e
      end ].

Lemma pe_create_report env (input_path output_path : Path)
  (pages_first_range pages_skip_range : Z * Z) (v1 v2 : bool) :
  print_equivalent
    (create_exploring_ai_report env input_path output_path
       pages_first_range pages_skip_range v1)
    (create_exploring_ai_report env input_path output_path
       pages_first_range pages_skip_range v2).
Proof.
  unfold create_exploring_ai_report. cbv zeta. pe_walk.
Qed.

(** X9. [verbose] changes only what is printed: the outcome, the pages read
    and the files written are the same for both of its values; and so
    [--quiet] changes neither the exit code of [main] nor its effects. *)
Theorem verbosity_changes_only_printing env (input_path output_path : Path)
  (pages_first_range pages_skip_range : Z * Z) (args : Args)
  (v1 v2 q1 q2 : bool) w :
  let r1 := create_exploring_ai_report env input_path output_path
              pages_first_range pages_skip_range v1 w in
  let r2 := create_exploring_ai_report env input_path output_path
              pages_first_range pages_skip_range v2 w in
  let with_quiet q :=
    {| input_file := input_file args; output_file := output_file args;
       first_range := first_range args; skip_range := skip_range args;
       quiet := q |} in
  let m1 := main env (Namespace (with_quiet q1)) w in
  let m2 := main env (Namespace (with_quiet q2)) w in
  (r1.1 = r2.1 /\ page_reads r1.2 = page_reads r2.2 /\ files r1.2 = files r2.2)
  /\ (m1.1 = m2.1 /\ page_reads m1.2 = page_reads m2.2
      /\ files m1.2 = files m2.2).
Proof.
  intros r1 r2 with_quiet m1 m2. split.
  - destruct (pe_create_report env input_path output_path pages_first_range
                pages_skip_range v1 v2 w w) as (Ho & Hr & Hf); done.
  - subst m1 m2 with_quiet. unfold main, ends. cbv zeta.
    cbn [fst snd quiet first_range skip_range input_file output_file].
    match goal with
    | |- Ends (?t1 w).1 = Ends (?t2 w).1 /\ _ =>
        assert (print_equivalent t1 t2) as Hpe
    end.
    { apply pe_try_except.
      - apply pe_bind; [apply pe_create_report|intros ?; apply pe_ret].
      - intros e. destruct e; pe_walk. }
    destruct (Hpe w w) as (Ho & Hr & Hf); [done|].
    split_and!; [by f_equal|done|done].
Qed.

(** *** Exact quiet runs *)

Lemma wp_run {A} (m : M Page A) (Q : outcome A -> World Page -> Prop) w
  (o : outcome A) (w' : World Page) :
  m w = (o, w') -> Q o w' -> wp m Q w.
Proof. intros Hm HQ. unfold wp. by rewrite Hm. Qed.

Lemma wp_exact {A} (m : M Page A) w (o : outcome A) (w' : World Page) :
  wp m (fun o' w'' => o' = o /\ w'' = w') w -> m w = (o, w').
Proof. unfold wp. destruct (m w) as [o' w'']. simpl. by intros [-> ->]. Qed.

Lemma validate_input_file_passes env (input_path : Path) w :
  input_valid env input_path ->
  validate_input_file env input_path w = (Return tt, w).
Proof.
  intros (Hex & Hfile & Hsuf).
  unfold validate_input_file, bind, ret. by rewrite Hex, Hfile, Hsuf.
Qed.

Lemma validate_input_file_rejects env (input_path : Path) w :
  ~ input_valid env input_path ->
  exists e, validate_input_file env input_path w = (Raise e, w).
Proof.
  intros Hbad. unfold validate_input_file, bind, ret, raise.
  destruct (path_exists env _) eqn:Hex; simpl; [|by eauto].
  destruct (path_is_file env _) eqn:Hfile; simpl; [|by eauto].
  destruct (String.eqb _ _) eqn:Hsuf; simpl; [|by eauto].
  destruct Hbad. split_and!; [done..|]. by apply String.eqb_eq.
Qed.

Lemma open_and_write_succeeds env (path : string) (writer : list Page) w :
  open_wb env path = None ->
  pdf_write env path writer = None ->
  open_and_write env path writer w
  = (Return tt, record_file w path (Some writer)).
Proof.
  intros Ho Hw. unfold open_and_write, bind, lift_status, record_file.
  rewrite Ho. simpl. rewrite Hw. simpl. by rewrite insert_insert_eq.
Qed.

Lemma open_and_write_fails_to_write env (path : string)
  (writer : list Page) (e : exn) w :
  open_wb env path = None ->
  pdf_write env path writer = Some e ->
  open_and_write env path writer w = (Raise e, record_file w path None).
Proof.
  intros Ho Hw. unfold open_and_write, bind, lift_status, record_file.
  rewrite Ho. simpl. by rewrite Hw.
Qed.

Lemma open_and_write_fails_to_open env (path : string)
  (writer : list Page) (e : exn) w :
  open_wb env path = Some e ->
  open_and_write env path writer w = (Raise e, w).
Proof.
  intros Ho. unfold open_and_write, bind, lift_status. by rewrite Ho.
Qed.

Lemma for_each_app {A S} (xs ys : list A) (body : A -> S -> M Page S)
  (s : S) w :
  for_each (xs ++ ys) body s w
  = match for_each xs body s w with
    | (Return s', w') => for_each ys body s' w'
    | (Raise e, w') => (Raise e, w')
    end.
Proof.
  revert s w. induction xs as [|x xs IH]; intros s w; simpl; [done|].
  unfold bind. destruct (body x s w) as [[s'|e] w']; [|done].
  by rewrite IH.
Qed.

(** The two copying loops of a quiet run are one pass over the
    selection. *)
Lemma wp_two_loops {S B} (xs ys : list Z) (c : bool)
  (body : Z -> S -> M Page S) (s : S)
  (k : S -> M Page B) (Q : outcome B -> World Page -> Prop) w :
  wp (bind (for_each (xs ++ (if c then ys else [])) body s) k) Q w ->
  wp (bind (for_each xs body s)
        (fun st =>
           bind (if c
                 then bind (ret tt) (fun _ => for_each ys body st)
                 else ret st) k)) Q w.
Proof.
  assert (bind (for_each xs body s)
            (fun st =>
               bind (if c
                     then bind (ret tt) (fun _ => for_each ys body st)
                     else ret st) k) w
          = bind (for_each (xs ++ (if c then ys else [])) body s) k w) as Heq.
  { unfold bind, ret. destruct c.
    - rewrite for_each_app.
      by destruct (for_each xs body s w) as [[st|e] w1].
    - rewrite app_nil_r.
      by destruct (for_each xs body s w) as [[st|e] w1]. }
  unfold wp. by rewrite Heq.
Qed.

Lemma ranges_accepted_checks (first skip : Z * Z) (total : Z) :
  ranges_accepted first skip total = true ->
  (first.2 >? total) = false /\ (first.1 - 1 <? 0) = false
  /\ (skip.1 - 1 >=? total) = false.
Proof.
  unfold ranges_accepted. intros [[H1 H2]%andb_prop H3]%andb_prop.
  by apply negb_true_iff in H1, H2, H3.
Qed.

(** A quiet run, from its first statement to the copying loops. *)
Ltac quiet_prefix Hopen Hacc :=
  unfold create_exploring_ai_report; cbv zeta;
  apply wp_bind;
  eapply wp_run; [by apply validate_input_file_passes|];
  apply wp_try_except; unfold when; cbv beta iota;
  apply wp_bind, wp_ret; rewrite Hopen;
  apply wp_bind, wp_lift_outcome, wp_bind, wp_ret;
  destruct (ranges_accepted_checks _ _ _ Hacc) as (-> & -> & ->);
  cbv beta iota;
  do 4 apply wp_bind, wp_ret;
  apply wp_two_loops.

(** What the [except] clauses of a quiet run do with an exception. *)
Ltac quiet_handler e :=
  destruct e; unfold wp, bind, ret, raise; simpl; done.

(** A quiet run that goes well. *)
Lemma quiet_run_succeeds env (input_path output_path : Path)
  (reader : list (outcome Page)) (out : list Page)
  (pages_first_range pages_skip_range : Z * Z) w :
  let indices := loop_indices pages_first_range pages_skip_range
                   (Z.of_nat (length reader)) in
  opens_as env input_path reader ->
  ranges_accepted pages_first_range pages_skip_range
    (Z.of_nat (length reader)) = true ->
  Forall2 (page_at reader) indices out ->
  writable_with env output_path out ->
  create_exploring_ai_report env input_path output_path pages_first_range
    pages_skip_range false w
  = (Return true,
     record_file (record_reads w indices) (path_str output_path) (Some out)).
Proof.
  intros indices (Hex & Hfile & Hsuf & Hopen) Hacc Hout (Hmk & Ho & Hw).
  apply wp_exact.
  quiet_prefix Hopen Hacc.
  apply wp_bind. eapply wp_run; [by apply copy_loop_completes|].
  simpl. rewrite Hmk. apply wp_bind, wp_lift_status, wp_bind, wp_ret.
  apply wp_bind. eapply wp_run; [by apply open_and_write_succeeds|].
  apply wp_bind, wp_ret, wp_ret. done.
Qed.

(** A quiet run in which the codec fails to open the input. *)
Lemma quiet_run_fails_to_open env (input_path output_path : Path)
  (e : exn) (pages_first_range pages_skip_range : Z * Z) w :
  input_valid env input_path ->
  pdf_open env (path_str input_path) = Raise e ->
  create_exploring_ai_report env input_path output_path pages_first_range
    pages_skip_range false w
  = (Raise (reraised e), w).
Proof.
  intros Hvalid Hopen. apply wp_exact.
  unfold create_exploring_ai_report. cbv zeta.
  apply wp_bind. eapply wp_run; [by apply validate_input_file_passes|].
  apply wp_try_except. unfold when. cbv beta iota.
  apply wp_bind, wp_ret. rewrite Hopen. apply wp_bind, wp_lift_outcome.
  quiet_handler e.
Qed.

(** A quiet run that meets a page it cannot read. *)
Lemma quiet_run_stops_at_page env (input_path output_path : Path)
  (reader : list (outcome Page)) (seen rest : list Z) (i : Z) (e : exn)
  (ps : list Page) (pages_first_range pages_skip_range : Z * Z) w :
  opens_as env input_path reader ->
  ranges_accepted pages_first_range pages_skip_range
    (Z.of_nat (length reader)) = true ->
  loop_indices pages_first_range pages_skip_range (Z.of_nat (length reader))
  = seen ++ i :: rest ->
  Forall2 (page_at reader) seen ps ->
  page_outcome reader i = Raise e ->
  create_exploring_ai_report env input_path output_path pages_first_range
    pages_skip_range false w
  = (Raise (reraised e), record_reads w (seen ++ [i])).
Proof.
  intros (Hex & Hfile & Hsuf & Hopen) Hacc Hsplit Hseen Hi.
  apply wp_exact.
  quiet_prefix Hopen Hacc.
  apply wp_bind. unfold loop_indices in Hsplit. rewrite Hsplit.
  eapply wp_run; [by eapply copy_loop_stops|].
  quiet_handler e.
Qed.

(** A quiet run that has read the whole selection and cannot write it. *)
Lemma quiet_run_fails_to_write env (input_path output_path : Path)
  (reader : list (outcome Page)) (out : list Page) (e : exn)
  (pages_first_range pages_skip_range : Z * Z) w :
  let indices := loop_indices pages_first_range pages_skip_range
                   (Z.of_nat (length reader)) in
  let r := create_exploring_ai_report env input_path output_path
             pages_first_range pages_skip_range false w in
  opens_as env input_path reader ->
  ranges_accepted pages_first_range pages_skip_range
    (Z.of_nat (length reader)) = true ->
  Forall2 (page_at reader) indices out ->
  (mkdir_parents env (parent output_path) = Some e ->
   r = (Raise (reraised e), record_reads w indices))
  /\ (mkdir_parents env (parent output_path) = None ->
      open_wb env (path_str output_path) = Some e ->
      r = (Raise (reraised e), record_reads w indices))
  /\ (mkdir_parents env (parent output_path) = None ->
      open_wb env (path_str output_path) = None ->
      pdf_write env (path_str output_path) out = Some e ->
      r = (Raise (reraised e),
           record_file (record_reads w indices) (path_str output_path) None)).
Proof.
  intros indices r (Hex & Hfile & Hsuf & Hopen) Hacc Hout.
  split_and!.
  - intros Hmk. apply wp_exact. quiet_prefix Hopen Hacc.
    apply wp_bind. eapply wp_run; [by apply copy_loop_completes|].
    simpl. rewrite Hmk. apply wp_bind, wp_lift_status.
    quiet_handler e.
  - intros Hmk Ho. apply wp_exact. quiet_prefix Hopen Hacc.
    apply wp_bind. eapply wp_run; [by apply copy_loop_completes|].
    simpl. rewrite Hmk. apply wp_bind, wp_lift_status, wp_bind, wp_ret.
    apply wp_bind. eapply wp_run; [by apply open_and_write_fails_to_open|].
    quiet_handler e.
  - intros Hmk Ho Hw. apply wp_exact. quiet_prefix Hopen Hacc.
    apply wp_bind. eapply wp_run; [by apply copy_loop_completes|].
    simpl. rewrite Hmk. apply wp_bind, wp_lift_status, wp_bind, wp_ret.
    apply wp_bind. eapply wp_run; [by apply open_and_write_fails_to_write|].
    quiet_handler e.
Qed.

(** What a quiet run does to the outcome, the pages read and the files, a
    verbose run does too. *)
Lemma quiet_run_transfers env (input_path output_path : Path)
  (pages_first_range pages_skip_range : Z * Z) (verbose : bool) w
  (o : outcome bool) (w0 : World Page) :
  let r := create_exploring_ai_report env input_path output_path
             pages_first_range pages_skip_range verbose w in
  create_exploring_ai_report env input_path output_path pages_first_range
    pages_skip_range false w = (o, w0) ->
  r.1 = o /\ page_reads r.2 = page_reads w0 /\ files r.2 = files w0.
Proof.
  intros r Hq.
  destruct (pe_create_report env input_path output_path pages_first_range
              pages_skip_range verbose false w w) as (Ho & Hr & Hf); [done|].
  rewrite Hq in Ho, Hr, Hf. done.
Qed.

(** *** How runs of [create_exploring_ai_report] end *)

(** X2. An input that fails the tests of [validate_input_file] ends the run
    with that function's exception, unchanged, and with the world exactly
    as it was: nothing is printed even when verbose, the codec is not
    consulted, no page is read and no file is touched. *)
Theorem rejected_input_changes_nothing env (input_path output_path : Path)
  (pages_first_range pages_skip_range : Z * Z) (verbose : bool) w :
  ~ input_valid env input_path ->
  exists e,
    validate_input_file env input_path w = (Raise e, w)
    /\ create_exploring_ai_report env input_path output_path
         pages_first_range pages_skip_range verbose w = (Raise e, w).
Proof.
  intros Hbad.
  destruct (validate_input_file_rejects env input_path w Hbad) as [e He].
  exists e. split; [done|].
  unfold create_exploring_ai_report, bind. by rewrite He.
Qed.

(** X3. When the codec fails to open a valid input with the exception [e], the
    run ends with [e] itself if it is a [FileNotFoundError] or a
    [ValueError], with an [IOError] "Failed to process PDF: ..." caused by
    [e] if it is any other [Exception], and with [e] itself if it is no
    [Exception]; no page is read and no file is touched. *)
Theorem open_failure_reraised env (input_path output_path : Path) (e : exn)
  (pages_first_range pages_skip_range : Z * Z) (verbose : bool) w :
  let r := create_exploring_ai_report env input_path output_path
             pages_first_range pages_skip_range verbose w in
  input_valid env input_path ->
  pdf_open env (path_str input_path) = Raise e ->
  r.1 = Raise (reraised e)
  /\ page_reads r.2 = page_reads w
  /\ files r.2 = files w.
Proof.
  intros r Hvalid Hopen.
  apply (quiet_run_transfers env input_path output_path pages_first_range
           pages_skip_range verbose w (Raise (reraised e)) w).
  by apply quiet_run_fails_to_open.
Qed.

(** X4. The run stops at the first page of the selection that cannot be read:
    it has then asked for the indices up to that one and no further, it
    ends with the read's exception as the [except] clauses re-raise it,
    and it has touched no file; the output is opened only after the last
    page has been read. *)
Theorem unreadable_page_stops_the_run env (input_path output_path : Path)
  (reader : list (outcome Page)) (seen rest : list Z) (i : Z) (e : exn)
  (ps : list Page) (pages_first_range pages_skip_range : Z * Z)
  (verbose : bool) w :
  let r := create_exploring_ai_report env input_path output_path
             pages_first_range pages_skip_range verbose w in
  opens_as env input_path reader ->
  ranges_accepted pages_first_range pages_skip_range
    (Z.of_nat (length reader)) = true ->
  loop_indices pages_first_range pages_skip_range (Z.of_nat (length reader))
  = seen ++ i :: rest ->
  Forall2 (page_at reader) seen ps ->
  page_outcome reader i = Raise e ->
  r.1 = Raise (reraised e)
  /\ page_reads r.2 = page_reads w ++ seen ++ [i]
  /\ files r.2 = files w.
Proof.
  intros r Hop Hacc Hsplit Hseen Hi.
  apply (quiet_run_transfers env input_path output_path pages_first_range
           pages_skip_range verbose w (Raise (reraised e))
           (record_reads w (seen ++ [i]))).
  by eapply quiet_run_stops_at_page.
Qed.

(** X5. When the whole selection has been read and the output cannot be
    produced, the run raises; if the directory cannot be made or the file
    cannot be opened, no file is touched; if the file was opened and
    writing fails, the output path is left holding an incomplete file. *)
Theorem output_failure_outcomes env (input_path output_path : Path)
  (reader : list (outcome Page)) (out : list Page) (e : exn)
  (pages_first_range pages_skip_range : Z * Z) (verbose : bool) w :
  let r := create_exploring_ai_report env input_path output_path
             pages_first_range pages_skip_range verbose w in
  opens_as env input_path reader ->
  ranges_accepted pages_first_range pages_skip_range
    (Z.of_nat (length reader)) = true ->
  Forall2 (page_at reader)
    (loop_indices pages_first_range pages_skip_range
       (Z.of_nat (length reader))) out ->
  (mkdir_parents env (parent output_path) = Some e ->
   r.1 = Raise (reraised e) /\ files r.2 = files w)
  /\ (mkdir_parents env (parent output_path) = None ->
      open_wb env (path_str output_path) = Some e ->
      r.1 = Raise (reraised e) /\ files r.2 = files w)
  /\ (mkdir_parents env (parent output_path) = None ->
      open_wb env (path_str output_path) = None ->
      pdf_write env (path_str output_path) out = Some e ->
      r.1 = Raise (reraised e)
      /\ files r.2 = <[path_str output_path := None]> (files w)).
Proof.
  intros r Hop Hacc Hout.
  destruct (quiet_run_fails_to_write env input_path output_path reader out e
              pages_first_range pages_skip_range w Hop Hacc Hout)
    as (H1 & H2 & H3).
  split_and!.
  - intros Hmk.
    destruct (quiet_run_transfers _ _ _ _ _ verbose _ _ _ (H1 Hmk))
      as (? & _ & ?). done.
  - intros Hmk Ho.
    destruct (quiet_run_transfers _ _ _ _ _ verbose _ _ _ (H2 Hmk Ho))
      as (? & _ & ?). done.
  - intros Hmk Ho Hw.
    destruct (quiet_run_transfers _ _ _ _ _ verbose _ _ _ (H3 Hmk Ho Hw))
      as (? & _ & ?). done.
Qed.

Lemma page_at_functional (reader : list (outcome Page)) (indices : list Z)
  (out out' : list Page) :
  Forall2 (page_at reader) indices out ->
  Forall2 (page_at reader) indices out' ->
  out' = out.
Proof.
  intros H. revert out'. induction H as [|i p l k Hp _ IH]; intros out' H'.
  - by inversion H'.
  - inversion H' as [|? p' ? k' Hp' Hk']; subst.
    apply page_at_outcome in Hp, Hp'. f_equal; [congruence|by apply IH].
Qed.

(** A run in which nothing fails, quiet or not. *)
Lemma create_report_goes_well env (input_path output_path : Path)
  (reader : list (outcome Page)) (out : list Page)
  (pages_first_range pages_skip_range : Z * Z) (verbose : bool) w :
  let indices := loop_indices pages_first_range pages_skip_range
                   (Z.of_nat (length reader)) in
  let r := create_exploring_ai_report env input_path output_path
             pages_first_range pages_skip_range verbose w in
  opens_as env input_path reader ->
  ranges_accepted pages_first_range pages_skip_range
    (Z.of_nat (length reader)) = true ->
  Forall2 (page_at reader) indices out ->
  writable_with env output_path out ->
  r.1 = Return true
  /\ page_reads r.2 = page_reads w ++ indices
  /\ files r.2 = <[path_str output_path := Some out]> (files w).
Proof.
  intros indices r Hop Hacc Hout Hw.
  apply (quiet_run_transfers env input_path output_path pages_first_range
           pages_skip_range verbose w (Return true)
           (record_file (record_reads w indices) (path_str output_path)
              (Some out))).
  by apply quiet_run_succeeds.
Qed.

(** X6. [create_exploring_ai_report] returns exactly when the input opens,
    the ranges pass the checks, every page of the selection can be read
    and the output can be written; it has then read the selection and
    nothing else, and written those pages to the output path. *)
Theorem report_returns_iff env (input_path output_path : Path)
  (pages_first_range pages_skip_range : Z * Z) (verbose : bool) w :
  let r := create_exploring_ai_report env input_path output_path
             pages_first_range pages_skip_range verbose w in
  (r.1 = Return true
   <-> exists reader out,
         opens_as env input_path reader
         /\ ranges_accepted pages_first_range pages_skip_range
              (Z.of_nat (length reader)) = true
         /\ Forall2 (page_at reader)
              (loop_indices pages_first_range pages_skip_range
                 (Z.of_nat (length reader))) out
         /\ writable_with env output_path out)
  /\ (forall reader out,
        opens_as env input_path reader ->
        ranges_accepted pages_first_range pages_skip_range
          (Z.of_nat (length reader)) = true ->
        Forall2 (page_at reader)
          (loop_indices pages_first_range pages_skip_range
             (Z.of_nat (length reader))) out ->
        writable_with env output_path out ->
        page_reads r.2
        = page_reads w ++ loop_indices pages_first_range pages_skip_range
                            (Z.of_nat (length reader))
        /\ files r.2 = <[path_str output_path := Some out]> (files w)).
Proof.
  intros r. split.
  - split.
    + intros Hret.
      destruct (create_report_spec env input_path output_path
                  pages_first_range pages_skip_range verbose w)
        as [Hpost _].
      fold r in Hpost. rewrite Hret in Hpost.
      destruct Hpost as (_ & reader & out & ? & ? & _ & ? & ? & _).
      by exists reader, out.
    + intros (reader & out & Hop & Hacc & Hout & Hw).
      by destruct (create_report_goes_well env input_path output_path reader
                     out pages_first_range pages_skip_range verbose w).
  - intros reader out Hop Hacc Hout Hw.
    by destruct (create_report_goes_well env input_path output_path reader
                   out pages_first_range pages_skip_range verbose w)
      as (_ & ? & ?).
Qed.

(** X7. The only exception [main] lets out is the [SystemExit] of
    [parse_args]: for [--help] or a command line that argparse rejects, the
    run ends with that exit code, having printed what argparse printed and
    nothing else, and having read no page and touched no file.  Once the
    command line has parsed, [main] returns: 0 exactly when the input
    opens, the ranges pass the checks, every page of the selection can be
    read and the output can be written; 130 exactly when the call ends in
    [KeyboardInterrupt]; and 1 otherwise. *)
Theorem main_exit_codes env (command_line : parse_result) w :
  let m := main env command_line w in
  match command_line with
  | Exits out err code =>
      m.1 = SystemExit code
      /\ stdout m.2 = stdout w ++ out
      /\ stderr m.2 = stderr w ++ err
      /\ page_reads m.2 = page_reads w
      /\ files m.2 = files w
  | Namespace args =>
      let r := create_exploring_ai_report env (main_input args)
                 (main_output args) (first_range args) (skip_range args)
                 (negb (quiet args)) w in
      (m.1 = Ends (Return 0) \/ m.1 = Ends (Return 1)
       \/ m.1 = Ends (Return 130))
      /\ (m.1 = Ends (Return 0)
          <-> exists reader out,
                opens_as env (main_input args) reader
                /\ ranges_accepted (first_range args) (skip_range args)
                     (Z.of_nat (length reader)) = true
                /\ Forall2 (page_at reader)
                     (loop_indices (first_range args) (skip_range args)
                        (Z.of_nat (length reader))) out
                /\ writable_with env (main_output args) out)
      /\ (m.1 = Ends (Return 130) <-> r.1 = Raise KeyboardInterrupt)
  end.
Proof.
  intros m. subst m. destruct command_line as [args|out err code]; [|done].
  intros r. rewrite main_exit_code. fold r.
  destruct (create_report_spec env (main_input args) (main_output args)
              (first_range args) (skip_range args) (negb (quiet args)) w)
    as [Hpost _].
  fold r in Hpost.
  destruct r.1 as [b|e] eqn:Hret.
  - destruct Hpost as (-> & reader & out & ? & ? & _ & ? & ? & _).
    split_and!; [by left| |done].
    split; [|done]. intros _. by exists reader, out.
  - assert (~ exists reader out,
                opens_as env (main_input args) reader
                /\ ranges_accepted (first_range args) (skip_range args)
                     (Z.of_nat (length reader)) = true
                /\ Forall2 (page_at reader)
                     (loop_indices (first_range args) (skip_range args)
                        (Z.of_nat (length reader))) out
                /\ writable_with env (main_output args) out) as Hnot.
    { intros (reader & out & Hop & Hacc & Hout & Hw).
      destruct (create_report_goes_well env (main_input args)
                  (main_output args) reader out (first_range args)
                  (skip_range args) (negb (quiet args)) w) as (Hgood & _);
        [done..|].
      fold r in Hgood. congruence. }
    destruct e; (split_and!; [auto|split; [done|by intros ?]|split; done]).
Qed.

(** X20. Once the command line has parsed, [main] adds to what the call
    left behind at most one line, on standard error: nothing when the call
    returned, the line [Error: ...] with the message of the
    [FileNotFoundError], [ValueError] or [IOError] the call raised, or the
    cancellation notice after a [KeyboardInterrupt].  The clause
    [except Exception] with its [Unexpected error: ...] is never reached:
    the call has turned every other [Exception] into an [IOError]. *)
Theorem main_reports_on_stderr env (args : Args) w :
  let r := create_exploring_ai_report env (main_input args)
             (main_output args) (first_range args) (skip_range args)
             (negb (quiet args)) w in
  let m := main env (Namespace args) w in
  stdout m.2 = stdout r.2
  /\ page_reads m.2 = page_reads r.2
  /\ files m.2 = files r.2
  /\ stderr m.2
     = stderr r.2 ++
       match r.1 with
       | Return _ => []
       | Raise KeyboardInterrupt => [nl +:+ "Operation cancelled by user."]
       | Raise e => ["Error: " +:+ exn_str e]
       end.
Proof.
  intros r m. subst r m.
  destruct (create_report_spec env (main_input args) (main_output args)
              (first_range args) (skip_range args) (negb (quiet args)) w)
    as [_ Hraises].
  unfold main, ends, try_except, bind, main_input, main_output in *.
  destruct (input_file args), (output_file args); simpl in *;
    match goal with
    | |- context [create_exploring_ai_report ?e ?i ?o ?f ?s ?v ?w] =>
        destruct (create_exploring_ai_report e i o f s v w) as [[b|[]] w']
    end; simpl in *; rewrite ?app_nil_r; done.
Qed.

(** *** Ranges that do not overlap *)


(** *** The fixed-range scripts *)

Lemma add_loop_completes (reader : list (outcome Page)) (indices : list Z)
  (ps : list Page) (writer : list Page) w :
  Forall2 (page_at reader) indices ps ->
  for_each indices (add_page reader) writer w
  = (Return (writer ++ ps), record_reads w indices).
Proof.
  intros Hps. revert writer w.
  induction Hps as [|i p indices ps Hp _ IH]; intros writer w.
  - simpl. unfold ret. by rewrite record_reads_nil, app_nil_r.
  - simpl. unfold bind, add_page at 1, bind.
    rewrite pages_getitem_exact, (proj1 (page_at_outcome _ _ _) Hp).
    unfold ret. rewrite IH, record_reads_app. simpl.
    by rewrite <-app_assoc.
Qed.

Lemma add_loop_stops (reader : list (outcome Page)) (seen rest : list Z)
  (i : Z) (e : exn) (ps : list Page) (writer : list Page) w :
  Forall2 (page_at reader) seen ps ->
  page_outcome reader i = Raise e ->
  for_each (seen ++ i :: rest) (add_page reader) writer w
  = (Raise e, record_reads w (seen ++ [i])).
Proof.
  intros Hps He. revert writer w.
  induction Hps as [|j p seen ps Hp _ IH]; intros writer w.
  - simpl. unfold bind, add_page at 1, bind.
    by rewrite pages_getitem_exact, He.
  - simpl. unfold bind, add_page at 1, bind.
    rewrite pages_getitem_exact, (proj1 (page_at_outcome _ _ _) Hp).
    unfold ret. by rewrite IH, record_reads_app.
Qed.

(** Consecutive indices within a document that reads well select a
    slice of it. *)
Lemma readable_slice (doc : list Page) (a len : Z) :
  0 <= a -> a + len <= Z.of_nat (length doc) ->
  Forall2 (page_at (Return <$> doc)) (seqZ a len)
    (take (Z.to_nat len) (drop (Z.to_nat a) doc)).
Proof.
  intros Ha Hlen. apply Forall2_same_length_lookup. split.
  - rewrite length_seqZ, length_take, length_drop. lia.
  - intros k i p Hi Hp. apply lookup_seqZ in Hi as [-> Hk].
    apply page_at_readable; [lia|].
    apply lookup_take_Some in Hp as [Hp _]. rewrite lookup_drop in Hp.
    rewrite <-Hp. f_equal. lia.
Qed.

Lemma page_outcome_past_end (reader : list (outcome Page)) (i : Z) :
  Z.of_nat (length reader) <= i ->
  page_outcome reader i = Raise (IndexError "Sequence index out of range").
Proof.
  intros Hi. unfold page_outcome, normalize_index.
  assert ((i <? 0) = false) as -> by (apply Z.ltb_ge; lia).
  assert ((i >=? Z.of_nat (length reader)) = true) as ->
    by (rewrite Z.geb_leb; apply Z.leb_le; lia).
  by rewrite orb_true_r.
Qed.

(** Step over a block of [print] statements. *)
Ltac wp_says :=
  apply wp_bind, wp_only_prints; [solve [auto 10 with printing]|];
  let w' := fresh "w" in
  let Hr := fresh "Hr" in
  let Hf := fresh "Hf" in
  intros w' Hr Hf.

(** Follow the pages read and the files back to the first world. *)
Ltac chase_effects :=
  unfold py_range in *;
  cbn [record_reads record_file page_reads files] in *;
  repeat match goal with
         | H : page_reads _ = _ |- _ => rewrite H; clear H
         | H : files _ = _ |- _ => rewrite H; clear H
         end;
  cbn [record_reads record_file page_reads files];
  rewrite <-?app_assoc.

(** A run of [generate_exploring_ai_report] in which nothing fails. *)
Lemma fixed_report_runs env (input_filename output_filename : string)
  doc w :
  let r := generate_exploring_ai_report env input_filename output_filename
             w in
  let pages := take 10 doc ++ drop 13 doc in
  path_exists env input_filename = true ->
  pdf_open env input_filename = Return (Return <$> doc) ->
  10 <= Z.of_nat (length doc) ->
  open_wb env output_filename = None ->
  pdf_write env output_filename pages = None ->
  r.1 = Return tt
  /\ page_reads r.2
     = page_reads w ++ seqZ 0 10 ++ seqZ 13 (Z.of_nat (length doc) - 13)
  /\ files r.2 = <[output_filename := Some pages]> (files w).
Proof.
  intros r pages Hex Hopen Hn Ho Hw. subst r.
  change (wp (generate_exploring_ai_report env input_filename
                output_filename)
            (fun o w' =>
               o = Return tt
               /\ page_reads w'
                  = page_reads w ++ seqZ 0 10
                    ++ seqZ 13 (Z.of_nat (length doc) - 13)
               /\ files w' = <[output_filename := Some pages]> (files w))
            w).
  unfold generate_exploring_ai_report. rewrite Hex. cbn [negb].
  apply wp_try_except. wp_says. rewrite Hopen.
  apply wp_bind, wp_lift_outcome. cbv zeta. rewrite length_fmap.
  wp_says. wp_says.
  apply wp_bind. eapply wp_run.
  { apply add_loop_completes. apply (readable_slice doc 0 10); lia. }
  wp_says.
  apply wp_bind. eapply wp_run.
  { apply add_loop_completes. apply (readable_slice doc 13); lia. }
  change (Z.to_nat (10 - 0)) with 10%nat. change (Z.to_nat 0) with 0%nat.
  change (Z.to_nat 13) with 13%nat. rewrite drop_0, app_nil_l.
  replace (take (Z.to_nat (Z.of_nat (length doc) - 13)) (drop 13 doc))
    with (drop 13 doc) by (symmetry; apply take_ge; rewrite length_drop; lia).
  fold pages.
  apply wp_bind. eapply wp_run; [by apply open_and_write_succeeds|].
  wp_says. apply wp_only_prints; [auto with printing|].
  intros w' Hr' Hf'. split_and!; [done| |]; by chase_effects.
Qed.

(** X13. On a document of at least 10 pages [generate_exploring_ai_report]
    returns having written pages 1-10 and 14-end of the source, in that
    order, to the output file, and nothing else; a document of 10 to 13
    pages gives just its first 10 pages, and a longer one three pages
    fewer than it has. *)
Theorem fixed_report_output env (input_filename output_filename : string)
  doc w :
  let r := generate_exploring_ai_report env input_filename output_filename
             w in
  let pages := take 10 doc ++ drop 13 doc in
  path_exists env input_filename = true ->
  pdf_open env input_filename = Return (Return <$> doc) ->
  10 <= Z.of_nat (length doc) ->
  open_wb env output_filename = None ->
  pdf_write env output_filename pages = None ->
  r.1 = Return tt
  /\ page_reads r.2
     = page_reads w ++ seqZ 0 10 ++ seqZ 13 (Z.of_nat (length doc) - 13)
  /\ files r.2 = <[output_filename := Some pages]> (files w)
  /\ (Z.of_nat (length doc) <= 13 -> pages = take 10 doc)
  /\ (13 <= Z.of_nat (length doc) -> length pages = (length doc - 3)%nat).
Proof.
  intros r pages Hex Hopen Hn Ho Hw.
  destruct (fixed_report_runs env input_filename output_filename doc w
              Hex Hopen Hn Ho Hw) as (Hret & Hr & Hf).
  split_and!; [done|done|done| |].
  - intros Hshort. unfold pages. rewrite drop_ge by lia. apply app_nil_r.
  - intros Hlong. unfold pages.
    rewrite length_app, length_take, length_drop. lia.
Qed.

(** X14. A document of fewer than 10 pages, or a missing input, is only
    reported: [generate_exploring_ai_report] returns normally without
    having touched a file.  On the short document it has asked for the
    pages up to the first one that is not there, and its last line is the
    [IndexError]'s message; for the missing input it does not consult the
    codec at all. *)
Theorem fixed_report_gives_up_quietly env
  (input_filename output_filename : string) doc w :
  let r := generate_exploring_ai_report env input_filename output_filename
             w in
  (path_exists env input_filename = true ->
   pdf_open env input_filename = Return (Return <$> doc) ->
   Z.of_nat (length doc) < 10 ->
   r.1 = Return tt
   /\ page_reads r.2 = page_reads w ++ seqZ 0 (Z.of_nat (length doc) + 1)
   /\ files r.2 = files w
   /\ last (stdout r.2)
      = Some "❌ Critical Error: Sequence index out of range")
  /\ (path_exists env input_filename = false ->
      r.1 = Return tt
      /\ page_reads r.2 = page_reads w
      /\ files r.2 = files w
      /\ stderr r.2 = stderr w
      /\ stdout r.2
         = stdout w
           ++ ["❌ Error: The file '" +:+ input_filename +:+
               "' was not found.";
               "   -> Please ensure the PDF is in the same folder as this script."]).
Proof.
  intros r. split.
  - intros Hex Hopen Hn. subst r.
    set (n := Z.of_nat (length doc)) in *.
    change (wp (generate_exploring_ai_report env input_filename
                  output_filename)
              (fun o w' =>
                 o = Return tt
                 /\ page_reads w' = page_reads w ++ seqZ 0 (n + 1)
                 /\ files w' = files w
                 /\ last (stdout w')
                    = Some "❌ Critical Error: Sequence index out of range")
              w).
    unfold generate_exploring_ai_report. rewrite Hex. cbn [negb].
    apply wp_try_except. wp_says. rewrite Hopen.
    apply wp_bind, wp_lift_outcome. cbv zeta. rewrite length_fmap.
    wp_says. wp_says.
    apply wp_bind. eapply wp_run.
    { unfold py_range.
      replace (10 - 0) with (n + (1 + (9 - n))) by lia.
      rewrite seqZ_app, (seqZ_cons (0 + n)) by lia.
      eapply add_loop_stops.
      - apply (readable_slice doc 0 n); lia.
      - apply page_outcome_past_end. rewrite length_fmap. lia. }
    unfold wp, print. cbn [is_Exception fst snd exn_str]. simpl stdout.
    split_and!; [done| | |by rewrite last_snoc].
    + chase_effects. rewrite (seqZ_app 0 n 1) by lia. reflexivity.
    + by chase_effects.
  - intros Hex. subst r. unfold generate_exploring_ai_report.
    rewrite Hex. cbn [negb]. unfold bind, print. simpl.
    by rewrite <-app_assoc.
Qed.

Lemma add_page_exact (reader : list (outcome Page)) (i : Z) (p : Page)
  (writer : list Page) w :
  page_at reader i p ->
  add_page reader i writer w = (Return (writer ++ [p]), record_reads w [i]).
Proof.
  intros Hp. unfold add_page, bind.
  by rewrite pages_getitem_exact, (proj1 (page_at_outcome _ _ _) Hp).
Qed.

(** The four personalities and their pages. *)
Lemma personality_map_lookup (personality_type : string) (t : Z) :
  personality_map !! personality_type = Some t ->
  (personality_type = "Exploring" /\ t = 9)
  \/ (personality_type = "Building" /\ t = 10)
  \/ (personality_type = "Integrating" /\ t = 11)
  \/ (personality_type = "Leading" /\ t = 12).
Proof.
  unfold personality_map. intros H.
  repeat (apply lookup_insert_Some in H as [[<- <-]|[_ H]]; [by auto 6|]).
  by rewrite lookup_empty in H.
Qed.

(** A run of [generate_personality_report] on a document that has the
    personality's page, whatever becomes of the output. *)
Lemma personality_report_runs env (personality_type input_filename : string)
  doc (t : Z) (pt : Page) w :
  let r := generate_personality_report env personality_type input_filename
             w in
  let pages := take 9 doc ++ pt :: drop 13 doc in
  let path := personality_output personality_type in
  personality_map !! personality_type = Some t ->
  path_exists env input_filename = true ->
  pdf_open env input_filename = Return (Return <$> doc) ->
  t < Z.of_nat (length doc) ->
  doc !! Z.to_nat t = Some pt ->
  (forall e, open_wb env path = Some e -> is_Exception e = true) ->
  (forall e, pdf_write env path pages = Some e -> is_Exception e = true) ->
  r.1 = Return tt
  /\ page_reads r.2
     = page_reads w ++ seqZ 0 9 ++ t :: seqZ 13 (Z.of_nat (length doc) - 13)
  /\ (open_wb env path = None ->
      pdf_write env path pages = None ->
      files r.2 = <[path := Some pages]> (files w)).
Proof.
  intros r pages path Hmap Hex Hopen Ht Hpt Hoe Hwe. subst r.
  assert (9 <= t <= 12) as Hrange.
  { destruct (personality_map_lookup _ _ Hmap)
      as [[_ ->]|[[_ ->]|[[_ ->]|[_ ->]]]]; lia. }
  change (wp (generate_personality_report env personality_type
                input_filename)
            (fun o w' =>
               o = Return tt
               /\ page_reads w'
                  = page_reads w ++ seqZ 0 9
                    ++ t :: seqZ 13 (Z.of_nat (length doc) - 13)
               /\ (open_wb env path = None ->
                   pdf_write env path pages = None ->
                   files w' = <[path := Some pages]> (files w))) w).
  unfold generate_personality_report. rewrite Hmap, Hex. cbn [negb].
  fold (personality_output personality_type). fold path. cbv zeta.
  apply wp_try_except. rewrite Hopen.
  apply wp_bind, wp_lift_outcome. rewrite length_fmap.
  apply wp_bind. eapply wp_run.
  { apply add_loop_completes. apply (readable_slice doc 0 9); lia. }
  wp_says.
  apply wp_bind. eapply wp_run.
  { apply add_page_exact. apply page_at_readable; [lia|done]. }
  apply wp_bind. eapply wp_run.
  { apply add_loop_completes. apply (readable_slice doc 13); lia. }
  change (Z.to_nat (9 - 0)) with 9%nat. change (Z.to_nat 0) with 0%nat.
  change (Z.to_nat 13) with 13%nat. rewrite drop_0, app_nil_l.
  replace (take (Z.to_nat (Z.of_nat (length doc) - 13)) (drop 13 doc))
    with (drop 13 doc) by (symmetry; apply take_ge; rewrite length_drop; lia).
  rewrite <-app_assoc. change ([pt] ++ drop 13 doc) with (pt :: drop 13 doc).
  fold pages.
  apply wp_bind.
  destruct (open_wb env path) as [e|] eqn:Ho.
  { eapply wp_run; [by apply open_and_write_fails_to_open|].
    cbv beta iota. rewrite (Hoe e) by done. unfold wp, print. cbn [fst snd].
    split_and!; [done|by chase_effects|done]. }
  destruct (pdf_write env path pages) as [e|] eqn:Hw.
  { eapply wp_run; [by apply open_and_write_fails_to_write|].
    cbv beta iota. rewrite (Hwe e) by done. unfold wp, print. cbn [fst snd].
    split_and!; [done|by chase_effects|done]. }
  eapply wp_run; [by apply open_and_write_succeeds|].
  apply wp_only_prints; [auto with printing|].
  intros w' Hr' Hf'. split_and!; [done|by chase_effects|].
  intros _ _. by chase_effects.
Qed.

Lemma report_pages_at (doc : list Page) (t : Z) (pt : Page) :
  doc !! Z.to_nat t = Some pt ->
  report_pages doc t = take 9 doc ++ pt :: drop 13 doc.
Proof.
  intros Hpt. unfold report_pages. do 2 f_equal.
  rewrite <-(Nat.add_0_r (Z.to_nat t)), <-lookup_drop in Hpt.
  destruct (drop (Z.to_nat t) doc) as [|p l]; [done|].
  simpl in Hpt. by injection Hpt as ->.
Qed.

(** X15. For a personality of the table and a document that has its page,
    [generate_personality_report] returns having written the first nine
    pages, the personality's page and the pages from the fourteenth on to
    [STT25_Personalised_<personality>_AI.pdf]: three pages fewer than the
    source when that has at least 13. *)
Theorem personality_report_output env
  (personality_type input_filename : string) doc (t : Z) w :
  let r := generate_personality_report env personality_type input_filename
             w in
  let path := personality_output personality_type in
  personality_map !! personality_type = Some t ->
  path_exists env input_filename = true ->
  pdf_open env input_filename = Return (Return <$> doc) ->
  t < Z.of_nat (length doc) ->
  open_wb env path = None ->
  pdf_write env path (report_pages doc t) = None ->
  r.1 = Return tt
  /\ page_reads r.2
     = page_reads w ++ seqZ 0 9 ++ t :: seqZ 13 (Z.of_nat (length doc) - 13)
  /\ files r.2 = <[path := Some (report_pages doc t)]> (files w)
  /\ report_pages doc t !! 9%nat = doc !! Z.to_nat t
  /\ (13 <= Z.of_nat (length doc) ->
      length (report_pages doc t) = (length doc - 3)%nat).
Proof.
  intros r path Hmap Hex Hopen Ht Ho Hw.
  assert (9 <= t <= 12) as Hrange.
  { destruct (personality_map_lookup _ _ Hmap)
      as [[_ ->]|[[_ ->]|[[_ ->]|[_ ->]]]]; lia. }
  destruct (lookup_lt_is_Some_2 doc (Z.to_nat t)) as [pt Hpt]; [lia|].
  rewrite (report_pages_at doc t pt Hpt) in *.
  destruct (personality_report_runs env personality_type input_filename doc
              t pt w Hmap Hex Hopen Ht Hpt) as (Hret & Hr & Hf).
  { intros e He. fold path in He. congruence. }
  { intros e He. fold path in He. congruence. }
  split_and!; [done|done|by apply Hf| |].
  - rewrite lookup_app_r by (rewrite length_take; lia).
    rewrite length_take, Hpt.
    replace (9 - 9 `min` length doc)%nat with 0%nat by lia. done.
  - intros Hn. rewrite length_app, length_take, length_cons, length_drop.
    lia.
Qed.

(** X16. A personality that is not one of the four of the table is only
    reported: one line is printed, [generate_personality_report] returns,
    and the input file is not even looked for. *)
Theorem unknown_personality_is_only_reported env
  (personality_type input_filename : string) w :
  (personality_map !! personality_type = None
   <-> personality_type
       ∉ ["Exploring"; "Building"; "Integrating"; "Leading"])
  /\ (personality_type ∉ ["Exploring"; "Building"; "Integrating"; "Leading"] ->
      generate_personality_report env personality_type input_filename w
      = (Return tt,
         {| stdout := stdout w
                      ++ ["❌ Error: Unknown personality '" +:+
                          personality_type +:+ "'"];
            stderr := stderr w;
            page_reads := page_reads w;
            files := files w |})).
Proof.
  assert (personality_map !! personality_type = None
          <-> personality_type
              ∉ ["Exploring"; "Building"; "Integrating"; "Leading"]) as Hiff.
  { unfold personality_map. rewrite !lookup_insert_None, lookup_empty.
    rewrite !not_elem_of_cons.
    pose proof (not_elem_of_nil personality_type). intuition congruence. }
  split; [done|].
  intros Hp. apply Hiff in Hp.
  unfold generate_personality_report. by rewrite Hp.
Qed.

Lemma personality_report_same_files env
  (personality_type input_filename : string) :
  preserves (same_files_except (personality_output personality_type))
    (generate_personality_report env personality_type input_filename).
Proof.
  unfold generate_personality_report.
  fold (personality_output personality_type). cbv zeta.
  preserves_walk ltac:(first [apply pages_getitem_same_files
                             |apply open_and_write_same_files
                             |apply only_prints_same_files;
                              auto 10 with printing]).
Qed.

(** One report of the batch, when only [Exception]s can go wrong. *)
Lemma personality_report_step env (personality_type input_filename : string)
  doc (t : Z) w :
  let path := personality_output personality_type in
  personality_map !! personality_type = Some t ->
  path_exists env input_filename = true ->
  pdf_open env input_filename = Return (Return <$> doc) ->
  t < Z.of_nat (length doc) ->
  (forall q e, open_wb env q = Some e -> is_Exception e = true) ->
  (forall q writer e, pdf_write env q writer = Some e ->
                      is_Exception e = true) ->
  exists w',
    generate_personality_report env personality_type input_filename w
    = (Return tt, w')
    /\ same_files_except path w w'
    /\ (open_wb env path = None ->
        pdf_write env path (report_pages doc t) = None ->
        files w' !! path = Some (Some (report_pages doc t))).
Proof.
  intros path Hmap Hex Hopen Ht Hoe Hwe.
  assert (9 <= t <= 12) as Hrange.
  { destruct (personality_map_lookup _ _ Hmap)
      as [[_ ->]|[[_ ->]|[[_ ->]|[_ ->]]]]; lia. }
  destruct (lookup_lt_is_Some_2 doc (Z.to_nat t)) as [pt Hpt]; [lia|].
  rewrite (report_pages_at doc t pt Hpt).
  destruct (personality_report_runs env personality_type input_filename doc
              t pt w Hmap Hex Hopen Ht Hpt) as (Hret & _ & Hf);
    [by eauto..|].
  pose proof (personality_report_same_files env personality_type
                input_filename w) as Hsame.
  destruct (generate_personality_report env personality_type input_filename
              w) as [o w'].
  simpl in *. subst o. exists w'. split_and!; [done|done|].
  intros Ho Hw. fold path in Hf. by rewrite Hf, lookup_insert_eq.
Qed.

(** X17. The batch of [generate_all_reports.py] on a source of at least 12
    pages, when only [Exception]s can go wrong: the script returns; each
    of the three reports whose file can be opened and written holds its
    pages at the end, whatever became of the other two; and no other file
    is touched. *)
Theorem batch_reports_are_independent env doc w :
  let r := generate_all_reports_script env w in
  let source := "STT25_7806_AI_Readiness_Report_v2.pdf" in
  path_exists env source = true ->
  pdf_open env source = Return (Return <$> doc) ->
  12 <= Z.of_nat (length doc) ->
  (forall q e, open_wb env q = Some e -> is_Exception e = true) ->
  (forall q writer e, pdf_write env q writer = Some e ->
                      is_Exception e = true) ->
  r.1 = Return tt
  /\ (forall personality_type t,
        (personality_type, t)
        ∈ [("Exploring", 9); ("Building", 10); ("Integrating", 11)] ->
        open_wb env (personality_output personality_type) = None ->
        pdf_write env (personality_output personality_type)
          (report_pages doc t) = None ->
        files r.2 !! personality_output personality_type
        = Some (Some (report_pages doc t)))
  /\ (forall q,
        q ∉ [personality_output "Exploring"; personality_output "Building";
             personality_output "Integrating"] ->
        files r.2 !! q = files w !! q).
Proof.
  intros r source Hex Hopen Hn Hoe Hwe. subst r.
  unfold generate_all_reports_script, bind. cbv zeta. fold source.
  destruct (personality_report_step env "Exploring" source doc 9 w)
    as (w1 & -> & Hs1 & Hf1); [done|done|done|lia|done|done|].
  destruct (personality_report_step env "Building" source doc 10 w1)
    as (w2 & -> & Hs2 & Hf2); [done|done|done|lia|done|done|].
  destruct (personality_report_step env "Integrating" source doc 11 w2)
    as (w3 & -> & Hs3 & Hf3); [done|done|done|lia|done|done|].
  simpl. split_and!; [done| |].
  - intros p t Hin Ho Hw.
    apply elem_of_cons in Hin as [[= -> ->]|Hin].
    { rewrite Hs3, Hs2 by done. by apply Hf1. }
    apply elem_of_cons in Hin as [[= -> ->]|Hin].
    { rewrite Hs3 by done. by apply Hf2. }
    apply list_elem_of_singleton in Hin as [= -> ->]. by apply Hf3.
  - intros q Hq. rewrite !not_elem_of_cons in Hq.
    destruct Hq as (? & ? & ? & _).
    by rewrite Hs3, Hs2, Hs1.
Qed.

(** X18. On a source of at least 11 pages that reads well, the three scripts
    write the same document for the Exploring personality:
    [create_exploring_ai_report] with its default ranges,
    [generate_exploring_ai_report], and [generate_personality_report] for
    ["Exploring"] all write pages 1-10 and 14-end. *)
Theorem scripts_agree_on_exploring env (input_path output_path : Path)
  (output_filename : string) doc (verbose : bool) w :
  let source := path_str input_path in
  let pages := take 10 doc ++ drop 13 doc in
  let r1 := create_exploring_ai_report env input_path output_path
              (1, 10) (11, 13) verbose w in
  let r2 := generate_exploring_ai_report env source output_filename w in
  let r3 := generate_personality_report env "Exploring" source w in
  readable env input_path doc ->
  11 <= Z.of_nat (length doc) ->
  writable env output_path ->
  open_wb env output_filename = None ->
  pdf_write env output_filename pages = None ->
  open_wb env (personality_output "Exploring") = None ->
  pdf_write env (personality_output "Exploring") pages = None ->
  files r1.2 !! path_str output_path = Some (Some pages)
  /\ files r2.2 !! output_filename = Some (Some pages)
  /\ files r3.2 !! personality_output "Exploring" = Some (Some pages).
Proof.
  intros source pages r1 r2 r3 Hread Hn (Hmk & Ho1 & Hw1) Ho2 Hw2 Ho3 Hw3.
  pose proof Hread as (Hex & _ & _ & Hopen).
  split_and!.
  - destruct (create_report_goes_well env input_path output_path
                (Return <$> doc) pages (1, 10) (11, 13) verbose w)
      as (_ & _ & Hf); [done| | |done|].
    + rewrite length_fmap. apply ranges_accepted_iff. simpl. lia.
    + rewrite length_fmap. unfold loop_indices, py_range, pages.
      apply Forall2_app.
      * apply (readable_slice doc 0 10); lia.
      * cbn [fst snd].
        destruct (Z.ltb_spec 13 (Z.of_nat (length doc))).
        -- replace (drop 13 doc)
             with (take (Z.to_nat (Z.of_nat (length doc) - 13))
                     (drop (Z.to_nat 13) doc))
             by (apply take_ge; rewrite length_drop; lia).
           apply readable_slice; lia.
        -- rewrite drop_ge by lia. constructor.
    + fold r1 in Hf. by rewrite Hf, lookup_insert_eq.
  - destruct (fixed_report_runs env source output_filename doc w)
      as (_ & _ & Hf); [done|done|lia|done|done|].
    fold r2 in Hf. by rewrite Hf, lookup_insert_eq.
  - destruct (lookup_lt_is_Some_2 doc 9) as [p9 Hp9]; [lia|].
    assert (pages = take 9 doc ++ p9 :: drop 13 doc) as Hpages.
    { unfold pages. rewrite (take_S_r doc 9 p9 Hp9), <-app_assoc. done. }
    destruct (personality_report_runs env "Exploring" source doc 9 p9 w)
      as (_ & _ & Hf); [done|done|done|lia|done|..].
    { intros e He. congruence. }
    { intros e He. rewrite <-Hpages in He. congruence. }
    fold r3 in Hf. rewrite <-Hpages in Hf.
    by rewrite Hf, lookup_insert_eq.
Qed.

(** *** A negative skip end *)

Lemma page_at_from_the_end (doc : list Page) (i : Z) (p : Page) :
  - Z.of_nat (length doc) <= i < 0 ->
  doc !! Z.to_nat (Z.of_nat (length doc) + i) = Some p ->
  page_at (Return <$> doc) i p.
Proof.
  intros Hi Hp. exists (Z.of_nat (length doc) + i). rewrite length_fmap.
  split.
  - unfold normalize_index.
    assert ((i <? 0) = true) as -> by (apply Z.ltb_lt; lia).
    assert ((Z.of_nat (length doc) + i <? 0) = false) as ->
      by (apply Z.ltb_ge; lia).
    assert ((Z.of_nat (length doc) + i >=? Z.of_nat (length doc)) = false)
      as -> by (rewrite Z.geb_leb; apply Z.leb_gt; lia).
    done.
  - by rewrite list_lookup_fmap, Hp.
Qed.

Lemma slice_from_the_end (doc : list Page) (s : Z) :
  - Z.of_nat (length doc) <= s < 0 ->
  Forall2 (page_at (Return <$> doc)) (seqZ s (- s))
    (drop (Z.to_nat (Z.of_nat (length doc) + s)) doc).
Proof.
  intros Hs. apply Forall2_same_length_lookup. split.
  - rewrite length_seqZ, length_drop. lia.
  - intros k i p Hi Hp. apply lookup_seqZ in Hi as [-> Hk].
    apply page_at_from_the_end; [lia|].
    rewrite lookup_drop in Hp. rewrite <-Hp. f_equal. lia.
Qed.

Lemma page_outcome_before_start (reader : list (outcome Page)) (i : Z) :
  i < - Z.of_nat (length reader) ->
  page_outcome reader i = Raise (IndexError "Sequence index out of range").
Proof.
  intros Hi. unfold page_outcome, normalize_index.
  assert ((i <? 0) = true) as -> by (apply Z.ltb_lt; lia).
  assert ((Z.of_nat (length reader) + i <? 0) = true) as ->
    by (apply Z.ltb_lt; lia).
  done.
Qed.

(** X11. The end of the skip range is not checked against 1.  A negative skip
    end within the document counts from its end, as Python indexing does:
    after the keep range the run copies the last pages of the document
    and then the whole document again.  A skip end further back than the
    document is long makes the first access of the second loop fail, and
    the run ends with the [IOError] wrapping that [IndexError], after the
    keep range was read and before any file is touched. *)
Theorem negative_skip_end_wraps_around env (input_path output_path : Path)
  doc (pages_first_range pages_skip_range : Z * Z) (verbose : bool) w :
  let n := Z.of_nat (length doc) in
  let keep := py_range (pages_first_range.1 - 1) pages_first_range.2 in
  let r := create_exploring_ai_report env input_path output_path
             pages_first_range pages_skip_range verbose w in
  readable env input_path doc ->
  ranges_accepted pages_first_range pages_skip_range n = true ->
  (- n <= pages_skip_range.2 < 0 ->
   writable env output_path ->
   r.1 = Return true
   /\ page_reads r.2
      = page_reads w ++ keep ++ seqZ pages_skip_range.2 (n - pages_skip_range.2)
   /\ files r.2 !! path_str output_path
      = Some (Some (take (Z.to_nat (pages_first_range.2
                                    - (pages_first_range.1 - 1)))
                      (drop (Z.to_nat (pages_first_range.1 - 1)) doc)
                    ++ drop (Z.to_nat (n + pages_skip_range.2)) doc
                    ++ doc)))
  /\ (pages_skip_range.2 < - n ->
      r.1 = Raise (OSError
                     "Failed to process PDF: Sequence index out of range"
                     (Some (IndexError "Sequence index out of range")))
      /\ page_reads r.2 = page_reads w ++ keep ++ [pages_skip_range.2]
      /\ files r.2 = files w).
Proof.
  intros n keep r Hread Hacc.
  assert (opens_as env input_path (Return <$> doc)) as Hop by done.
  pose proof Hacc as Hacc'. apply ranges_accepted_iff in Hacc'.
  assert (Forall2 (page_at (Return <$> doc)) keep
            (take (Z.to_nat (pages_first_range.2 - (pages_first_range.1 - 1)))
               (drop (Z.to_nat (pages_first_range.1 - 1)) doc))) as Hkeep.
  { apply readable_slice; lia. }
  split.
  - intros Hskip Hw.
    assert (loop_indices pages_first_range pages_skip_range n
            = keep ++ seqZ pages_skip_range.2 (- pages_skip_range.2)
                   ++ seqZ 0 n) as Hind.
    { unfold loop_indices, py_range. fold keep. f_equal.
      destruct (Z.ltb_spec pages_skip_range.2 n); [|lia].
      replace (n - pages_skip_range.2)
        with (- pages_skip_range.2 + n) by lia.
      rewrite seqZ_app by lia. do 2 f_equal. lia. }
    destruct (create_report_goes_well env input_path output_path
                (Return <$> doc)
                (take (Z.to_nat (pages_first_range.2
                                 - (pages_first_range.1 - 1)))
                   (drop (Z.to_nat (pages_first_range.1 - 1)) doc)
                 ++ drop (Z.to_nat (n + pages_skip_range.2)) doc ++ doc)
                pages_first_range pages_skip_range verbose w)
      as (Hret & Hr & Hf); [done|by rewrite length_fmap| | |].
    + rewrite length_fmap. fold n. rewrite Hind.
      apply Forall2_app; [done|]. apply Forall2_app.
      * by apply slice_from_the_end.
      * replace doc with (take (Z.to_nat n) (drop (Z.to_nat 0) doc)) at 2
          by (rewrite drop_0; apply take_ge; lia).
        apply readable_slice; lia.
    + destruct Hw as (? & ? & ?). by split_and!.
    + fold r in Hret, Hr, Hf. rewrite length_fmap in Hr. fold n in Hr.
      rewrite Hind in Hr. split_and!; [done| |by rewrite Hf, lookup_insert_eq].
      rewrite Hr. do 2 f_equal.
      replace (n - pages_skip_range.2)
        with (- pages_skip_range.2 + n) by lia.
      rewrite seqZ_app by lia. do 2 f_equal. lia.
  - intros Hskip.
    assert (loop_indices pages_first_range pages_skip_range n
            = keep ++ pages_skip_range.2
                   :: seqZ (Z.succ pages_skip_range.2)
                        (Z.pred (n - pages_skip_range.2))) as Hind.
    { unfold loop_indices, py_range. fold keep. f_equal.
      destruct (Z.ltb_spec pages_skip_range.2 n); [|lia].
      apply seqZ_cons. lia. }
    apply (quiet_run_transfers env input_path output_path pages_first_range
             pages_skip_range verbose w
             (Raise (reraised (IndexError "Sequence index out of range")))
             (record_reads w (keep ++ [pages_skip_range.2]))).
    eapply quiet_run_stops_at_page; [done|by rewrite length_fmap| |done|].
    + rewrite length_fmap. exact Hind.
    + apply page_outcome_before_start. rewrite length_fmap. fold n. lia.
Qed.

(** *** The summary a verbose run prints *)

(** X12. A verbose run that returns ends its output with the line
    "   - Total pages in output: k", where [k] is the number of pages of
    the document it wrote: the counter [pages_added] agrees with the
    writer. *)
Theorem summary_counts_the_pages_written env (input_path output_path : Path)
  (pages_first_range pages_skip_range : Z * Z) w :
  let r := create_exploring_ai_report env input_path output_path
             pages_first_range pages_skip_range true w in
  r.1 = Return true ->
  exists out,
    files r.2 !! path_str output_path = Some (Some out)
    /\ last (stdout r.2)
       = Some ("   - Total pages in output: "
               +:+ str_int (Z.of_nat (length out))).
Proof.
  intros r. subst r.
  change (wp (create_exploring_ai_report env input_path output_path
                pages_first_range pages_skip_range true)
            (fun o w' =>
               o = Return true ->
               exists out,
                 files w' !! path_str output_path = Some (Some out)
                 /\ last (stdout w')
                    = Some ("   - Total pages in output: "
                            +:+ str_int (Z.of_nat (length out)))) w).
  unfold create_exploring_ai_report. cbv zeta.
  apply wp_bind, wp_validate_input_file; [|by intros].
  intros _ _ _. apply wp_try_except.
  apply (wp_mono _ (fun o w' =>
                      match o with
                      | Return _ =>
                          exists out,
                            files w' !! path_str output_path
                            = Some (Some out)
                            /\ last (stdout w')
                               = Some ("   - Total pages in output: "
                                       +:+ str_int (Z.of_nat (length out)))
                      | Raise _ => True
                      end)).
  2:{ intros [b|e] w'; [by intros|]. intros _.
      destruct e; simpl; try (by apply wp_raise);
        wp_says; by apply wp_raise. }
  wp_says.
  apply wp_bind, wp_lift_outcome.
  destruct (pdf_open env (path_str input_path)) as [reader|e]; [|done].
  wp_says.
  apply wp_bind.
  destruct (pages_first_range.2 >? _); [by apply wp_raise|].
  apply wp_ret, wp_bind.
  destruct (pages_first_range.1 - 1 <? 0); [by apply wp_raise|].
  apply wp_ret, wp_bind.
  destruct (pages_skip_range.1 - 1 >=? _); [by apply wp_raise|].
  apply wp_ret. wp_says.
  apply wp_bind, wp_copy_loop; [done|].
  intros ps1 w3 Hps1 _ _. cbn [fst snd].
  apply wp_bind.
  apply (wp_mono _
    (fun o w4 =>
       match o with
       | Return st => st.2 = Z.of_nat (length st.1)
       | Raise _ => True
       end)).
  { destruct (pages_skip_range.2 <? _).
    - wp_says. apply wp_copy_loop; [done|].
      intros ps2 w' Hps2 _ _. cbn [fst snd app].
      rewrite length_app, <-(Forall2_length _ _ _ Hps1),
        <-(Forall2_length _ _ _ Hps2). lia.
    - apply wp_ret. cbn [fst snd app].
      rewrite <-(Forall2_length _ _ _ Hps1). lia. }
  intros [st|e] w4; [|done]. intros Hcount.
  apply wp_bind, wp_lift_status.
  destruct (mkdir_parents env (parent output_path)); [done|].
  wp_says.
  apply wp_bind, wp_open_and_write; [|done].
  intros w' _ _ _ Hf'.
  unfold wp, bind, when, print, ret.
  destruct (pages_skip_range.2 <? _); simpl;
    (exists st.1; split;
     [by rewrite Hf', lookup_insert_eq
     |by rewrite last_snoc, Hcount]).
Qed.

End Further.

(** ** The further properties at concrete documents *)

(** The pages a list of indices selects from a concrete document. *)
Ltac select_pages :=
  vm_compute; repeat first [constructor | eexists; split; reflexivity].

Example batch_with_one_failure :
  let env := with_write_failure (obliging_env (numbered_doc 20))
               "STT25_Personalised_Building_AI.pdf"
               (OSError "No space left on device" None) in
  let r := generate_all_reports_script env blank_world in
  r.1 = Return tt
  /\ files r.2 !! "STT25_Personalised_Exploring_AI.pdf"
     = Some (Some [1; 2; 3; 4; 5; 6; 7; 8; 9; 10; 14; 15; 16; 17; 18; 19; 20])
  /\ files r.2 !! "STT25_Personalised_Building_AI.pdf" = Some None
  /\ files r.2 !! "STT25_Personalised_Integrating_AI.pdf"
     = Some (Some [1; 2; 3; 4; 5; 6; 7; 8; 9; 12; 14; 15; 16; 17; 18; 19; 20]).
Proof. vm_compute. repeat split. Qed.

Example negative_skip_end_on_20_pages :
  let r := create_exploring_ai_report (obliging_env (numbered_doc 20))
             sample_input sample_output (1, 3) (5, -2) false blank_world in
  r.1 = Return true
  /\ page_reads r.2
     = [0; 1; 2; -2; -1; 0; 1; 2; 3; 4; 5; 6; 7; 8; 9; 10; 11; 12; 13; 14;
        15; 16; 17; 18; 19]
  /\ files r.2 !! path_str sample_output
     = Some (Some [1; 2; 3; 19; 20; 1; 2; 3; 4; 5; 6; 7; 8; 9; 10; 11; 12;
                   13; 14; 15; 16; 17; 18; 19; 20]).
Proof. vm_compute. repeat split. Qed.

Example uppercase_suffix_is_accepted :
  (validate_input_file (obliging_env (numbered_doc 20))
     {| path_str := "MASTER.PDF"; suffix := ".PDF"; parent := "." |}
     blank_world).1 = Return tt.
Proof. reflexivity. Qed.

Lemma rejected_input_changes_nothing_witness :
  exists e,
    validate_input_file
      (with_nothing_on_disk (obliging_env (numbered_doc 20))) sample_input
      blank_world = (Raise e, blank_world)
    /\ create_exploring_ai_report
         (with_nothing_on_disk (obliging_env (numbered_doc 20))) sample_input
         sample_output (1, 10) (11, 13) true blank_world
       = (Raise e, blank_world).
Proof.
  refine (rejected_input_changes_nothing
            (with_nothing_on_disk (obliging_env (numbered_doc 20)))
            sample_input sample_output (1, 10) (11, 13) true blank_world _).
  intros (Hex & _). discriminate Hex.
Defined.

Lemma open_failure_reraised_witness :
  let e := OtherException "PdfReadError" "EOF marker not found" in
  let r := create_exploring_ai_report
             (with_open_failure (obliging_env (numbered_doc 20)) e)
             sample_input sample_output (1, 10) (11, 13) true blank_world in
  r.1 = Raise (OSError "Failed to process PDF: EOF marker not found" (Some e))
  /\ page_reads r.2 = []
  /\ files r.2 = ∅.
Proof.
  refine (open_failure_reraised
            (with_open_failure (obliging_env (numbered_doc 20))
               (OtherException "PdfReadError" "EOF marker not found"))
            sample_input sample_output
            (OtherException "PdfReadError" "EOF marker not found")
            (1, 10) (11, 13) true blank_world _ _).
  - repeat split.
  - reflexivity.
Defined.

Lemma unreadable_page_stops_the_run_witness :
  let e := OtherException "PdfReadError" "corrupt page" in
  let r := create_exploring_ai_report
             (with_unreadable_page (obliging_env (numbered_doc 20)) 4 e)
             sample_input sample_output (1, 10) (11, 13) true blank_world in
  r.1 = Raise (OSError "Failed to process PDF: corrupt page" (Some e))
  /\ page_reads r.2 = [0; 1; 2; 3; 4]
  /\ files r.2 = ∅.
Proof.
  refine (unreadable_page_stops_the_run
            (with_unreadable_page (obliging_env (numbered_doc 20)) 4
               (OtherException "PdfReadError" "corrupt page"))
            sample_input sample_output
            (<[4%nat := Raise (OtherException "PdfReadError" "corrupt page")]>
               (Return <$> numbered_doc 20))
            [0; 1; 2; 3] [5; 6; 7; 8; 9; 13; 14; 15; 16; 17; 18; 19] 4
            (OtherException "PdfReadError" "corrupt page") [1; 2; 3; 4]
            (1, 10) (11, 13) true blank_world _ _ _ _ _).
  - repeat split.
  - reflexivity.
  - reflexivity.
  - repeat constructor.
    + by exists 0.
    + by exists 1.
    + by exists 2.
    + by exists 3.
  - reflexivity.
Defined.

Lemma output_failure_outcomes_witness :
  let e := OSError "No space left on device" None in
  let r := create_exploring_ai_report
             (with_write_failure (obliging_env (numbered_doc 20))
                (path_str sample_output) e)
             sample_input sample_output (1, 10) (11, 13) true blank_world in
  r.1 = Raise (OSError "Failed to process PDF: No space left on device"
                 (Some e))
  /\ files r.2 = <[path_str sample_output := None]> ∅.
Proof.
  refine (proj2 (proj2
            (output_failure_outcomes
               (with_write_failure (obliging_env (numbered_doc 20))
                  (path_str sample_output)
                  (OSError "No space left on device" None))
               sample_input sample_output (Return <$> numbered_doc 20)
               [1; 2; 3; 4; 5; 6; 7; 8; 9; 10; 14; 15; 16; 17; 18; 19; 20]
               (OSError "No space left on device" None)
               (1, 10) (11, 13) true blank_world _ _ _)) _ _ _).
  - repeat split.
  - reflexivity.
  - select_pages.
  - reflexivity.
  - reflexivity.
  - reflexivity.
Defined.

Lemma fixed_report_output_witness :
  let r := generate_exploring_ai_report (obliging_env (numbered_doc 12))
             "master.pdf" "out.pdf" blank_world in
  r.1 = Return tt
  /\ page_reads r.2 = [0; 1; 2; 3; 4; 5; 6; 7; 8; 9]
  /\ files r.2 = <["out.pdf" := Some [1; 2; 3; 4; 5; 6; 7; 8; 9; 10]]> ∅.
Proof.
  refine (let H := fixed_report_output (obliging_env (numbered_doc 12))
                     "master.pdf" "out.pdf" (numbered_doc 12) blank_world
                     _ _ _ _ _ in
          conj (proj1 H) (conj (proj1 (proj2 H)) (proj1 (proj2 (proj2 H))))).
  - reflexivity.
  - reflexivity.
  - vm_compute. discriminate.
  - reflexivity.
  - reflexivity.
Defined.

Lemma personality_report_output_witness :
  let r := generate_personality_report (obliging_env (numbered_doc 20))
             "Integrating" "master.pdf" blank_world in
  r.1 = Return tt
  /\ page_reads r.2
     = [0; 1; 2; 3; 4; 5; 6; 7; 8; 11; 13; 14; 15; 16; 17; 18; 19]
  /\ files r.2
     = <["STT25_Personalised_Integrating_AI.pdf"
         := Some [1; 2; 3; 4; 5; 6; 7; 8; 9; 12; 14; 15; 16; 17; 18; 19; 20]]>
         ∅.
Proof.
  refine (let H := personality_report_output (obliging_env (numbered_doc 20))
                     "Integrating" "master.pdf" (numbered_doc 20) 11
                     blank_world _ _ _ _ _ _ in
          conj (proj1 H) (conj (proj1 (proj2 H)) (proj1 (proj2 (proj2 H))))).
  - reflexivity.
  - reflexivity.
  - reflexivity.
  - reflexivity.
  - reflexivity.
  - reflexivity.
Defined.

Lemma batch_reports_are_independent_witness :
  let env := with_write_failure (obliging_env (numbered_doc 20))
               "STT25_Personalised_Building_AI.pdf"
               (OSError "No space left on device" None) in
  let r := generate_all_reports_script env blank_world in
  r.1 = Return tt
  /\ files r.2 !! personality_output "Exploring"
     = Some (Some (report_pages (numbered_doc 20) 9))
  /\ files r.2 !! personality_output "Integrating"
     = Some (Some (report_pages (numbered_doc 20) 11))
  /\ files r.2 !! "unrelated.pdf" = None.
Proof.
  destruct (batch_reports_are_independent
              (with_write_failure (obliging_env (numbered_doc 20))
                 "STT25_Personalised_Building_AI.pdf"
                 (OSError "No space left on device" None))
              (numbered_doc 20) blank_world) as (H1 & H2 & H3).
  - reflexivity.
  - reflexivity.
  - vm_compute. discriminate.
  - intros q e He. discriminate He.
  - intros q writer e He. simpl in He.
    destruct (String.eqb q "STT25_Personalised_Building_AI.pdf");
      [|discriminate He].
    injection He as <-. reflexivity.
  - split; [exact H1|]. split; [|split].
    + apply (H2 "Exploring" 9); [apply list_elem_of_here|reflexivity..].
    + apply (H2 "Integrating" 11); [|reflexivity..].
      apply list_elem_of_further, list_elem_of_further, list_elem_of_here.
    + apply (H3 "unrelated.pdf"). intros Hin. vm_compute in Hin.
      repeat (apply elem_of_cons in Hin as [Hin|Hin]; [discriminate Hin|]).
      by apply elem_of_nil in Hin.
Defined.

Lemma scripts_agree_on_exploring_witness :
  let env := obliging_env (numbered_doc 20) in
  let pages := [1; 2; 3; 4; 5; 6; 7; 8; 9; 10; 14; 15; 16; 17; 18; 19; 20] in
  files (create_exploring_ai_report env sample_input sample_output
           (1, 10) (11, 13) true blank_world).2 !! path_str sample_output
  = Some (Some pages)
  /\ files (generate_exploring_ai_report env (path_str sample_input)
              "out.pdf" blank_world).2 !! "out.pdf"
     = Some (Some pages)
  /\ files (generate_personality_report env "Exploring"
              (path_str sample_input) blank_world).2
       !! personality_output "Exploring"
     = Some (Some pages).
Proof.
  refine (scripts_agree_on_exploring (obliging_env (numbered_doc 20))
            sample_input sample_output "out.pdf" (numbered_doc 20) true
            blank_world _ _ _ _ _ _ _).
  - repeat split.
  - vm_compute. discriminate.
  - repeat split.
  - reflexivity.
  - reflexivity.
  - reflexivity.
  - reflexivity.
Defined.

Lemma negative_skip_end_wraps_around_witness :
  (let r := create_exploring_ai_report (obliging_env (numbered_doc 20))
              sample_input sample_output (1, 3) (5, -2) true blank_world in
   r.1 = Return true
   /\ page_reads r.2
      = [0; 1; 2; -2; -1; 0; 1; 2; 3; 4; 5; 6; 7; 8; 9; 10; 11; 12; 13; 14;
         15; 16; 17; 18; 19]
   /\ files r.2 !! path_str sample_output
      = Some (Some [1; 2; 3; 19; 20; 1; 2; 3; 4; 5; 6; 7; 8; 9; 10; 11; 12;
                    13; 14; 15; 16; 17; 18; 19; 20]))
  /\ (let r := create_exploring_ai_report (obliging_env (numbered_doc 20))
                 sample_input sample_output (1, 3) (5, -30) true
                 blank_world in
      r.1 = Raise (OSError
                     "Failed to process PDF: Sequence index out of range"
                     (Some (IndexError "Sequence index out of range")))
      /\ page_reads r.2 = [0; 1; 2; -30]
      /\ files r.2 = ∅).
Proof.
  split.
  - refine (proj1 (negative_skip_end_wraps_around
                     (obliging_env (numbered_doc 20)) sample_input
                     sample_output (numbered_doc 20) (1, 3) (5, -2) true
                     blank_world _ _) _ _).
    + repeat split.
    + reflexivity.
    + vm_compute. split; [discriminate|reflexivity].
    + repeat split.
  - refine (proj2 (negative_skip_end_wraps_around
                     (obliging_env (numbered_doc 20)) sample_input
                     sample_output (numbered_doc 20) (1, 3) (5, -30) true
                     blank_world _ _) _).
    + repeat split.
    + reflexivity.
    + reflexivity.
Defined.

Lemma summary_counts_the_pages_written_witness :
  let r := create_exploring_ai_report (obliging_env (numbered_doc 20))
             sample_input sample_output (1, 10) (11, 13) true blank_world in
  exists out,
    files r.2 !! path_str sample_output = Some (Some out)
    /\ last (stdout r.2)
       = Some ("   - Total pages in output: "
               +:+ str_int (Z.of_nat (length out))).
Proof.
  refine (summary_counts_the_pages_written (obliging_env (numbered_doc 20))
            sample_input sample_output (1, 10) (11, 13) blank_world _).
  reflexivity.
Defined.

